(** * Invoice calculator ([src/invioce_service.py]): model and properties

    A shallow embedding of [InvoiceService] and of the two data classes it
    works on, [LineItem] and [Invoice], with the types their annotations
    give them.

    - A Python [float] is an IEEE 754 binary64 number: Rocq's primitive
      [float], the same format with the same round-to-nearest-even
      arithmetic, infinities and NaN.  A literal such as [0.07] denotes the
      nearest binary64 value in both languages.
    - A Python [int] is a [Z].  The only unbounded integer of the program is
      [qty]; where it meets a float ([unit_price * qty], [5.0 * qty]) Python
      converts it, and raises [OverflowError] when it is too large.  The
      small integer constants the code produces (the shipping fees, the
      flat bonus 20, the clamped total 0) only ever flow into float
      arithmetic and comparisons, where they stand for the float they
      convert to exactly; they are written as that float.
    - A Python [str] is a Rocq [string], read as the sequence of its code
      points (the model covers code points below 256).
    - The class-level dictionaries are [gmap]s with string keys, the set of
      categories is a [gset].
    - Exceptions are the [Raise] results of a small error monad. *)

From Stdlib Require Import ZArith Lia List Ascii String Floats Uint63.
From stdpp Require Import base option list gmap strings.
Import ListNotations.

Set Warnings "-inexact-float".
Local Open Scope string_scope.
Local Open Scope list_scope.

(** ** Exceptions *)

Inductive exn : Type :=
  | ValueError (msg : string)
  | OverflowError.

Inductive result (A : Type) : Type :=
  | Ok (a : A)
  | Raise (e : exn).
Arguments Ok {A} a.
Arguments Raise {A} e.

#[global] Instance result_ret : MRet result := fun A a => Ok a.
#[global] Instance result_bind : MBind result := fun A B f m =>
  match m with
  | Ok a => f a
  | Raise e => Raise e
  end.

#[global] Instance float_inhabited : Inhabited float := populate 0%float.

(** ** The Python operations the service uses *)

Module Py.

(** [x > y] on floats. *)
Definition gtb (x y : float) : bool := (y <? x)%float.

(** The conversion of the [int] operand of a float operation: correctly
    rounded, and [OverflowError] when the rounded value is not finite. *)
Definition float_of_int (n : Z) : result float :=
  let f := SF2Prim (binary_normalize prec emax n 0 false) in
  if is_infinity f then Raise OverflowError else Ok f.

(** [x * n] for a float [x] and an int [n]. *)
Definition mul_int (x : float) (n : Z) : result float :=
  y ← float_of_int n; Ok (x * y)%float.

(** [sum(f(i) for i in l)]: the values are added to the start value 0 from
    left to right; the generator computes [f i] when the sum asks for it,
    so the first failing item aborts the sum.  (CPython from 3.12 on
    accumulates floats with a compensation term, which can change the last
    bit of a sum of three or more values; no statement below depends on
    how a sum of several values is rounded.) *)
Fixpoint sum_from {A : Type} (f : A -> result float) (l : list A)
    (acc : float) : result float :=
  match l with
  | [] => Ok acc
  | i :: l' => x ← f i; sum_from f l' (acc + x)%float
  end.

Definition sum {A : Type} (f : A -> result float) (l : list A) : result float :=
  sum_from f l 0%float.

(** The truth value of a string: it is not empty. *)
Definition truthy (s : string) : bool :=
  match s with
  | EmptyString => false
  | String _ _ => true
  end.

(** [str.isspace] on one character, for code points below 256: the
    characters that [strip] removes. *)
Definition isspace (c : ascii) : bool :=
  let n := N_of_ascii c in
  ((9 <=? n) && (n <=? 13) || (28 <=? n) && (n <=? 32)
   || (n =? 133) || (n =? 160))%N.

Fixpoint lstrip (s : string) : string :=
  match s with
  | EmptyString => EmptyString
  | String c s' => if isspace c then lstrip s' else s
  end.

Definition rstrip (s : string) : string := String.rev (lstrip (String.rev s)).

(** [s.strip()] *)
Definition strip (s : string) : string := rstrip (lstrip s).

(** [l.append(s)] *)
Definition append (l : list string) (s : string) : list string := l ++ [s].

(** [sep.join(l)] *)
Fixpoint join (sep : string) (l : list string) : string :=
  match l with
  | [] => ""
  | [s] => s
  | s :: l' => s +:+ sep +:+ join sep l'
  end.

End Py.

(** ** Data model *)

Record LineItem : Type := mkLineItem {
  sku : string;
  category : string;
  unit_price : float;
  qty : Z;
  fragile : bool
}.

Record Invoice : Type := mkInvoice {
  invoice_id : string;
  customer_id : string;
  country : string;
  membership : string;
  coupon : option string;
  items : list LineItem
}.

(** ** The service *)

Definition SHIPPING_RULES : gmap string (float -> float) :=
  {[ "TH" := fun subtotal => if (subtotal <? 500)%float then 60%float else 0%float;
     "JP" := fun subtotal => if (subtotal <? 4000)%float then 600%float else 0%float;
     "US" := fun subtotal =>
               if (subtotal <? 100)%float then 15%float
               else if (subtotal <? 300)%float then 8%float else 0%float;
     "DEFAULT" := fun subtotal => if (subtotal <? 200)%float then 25%float else 0%float ]}.

Definition TAX_RATE : gmap string float :=
  {[ "TH" := 0.07%float; "JP" := 0.10%float; "US" := 0.08%float;
     "DEFAULT" := 0.05%float ]}.

Definition MEMBERSHIP_DISCOUNT : gmap string float :=
  {[ "gold" := 0.03%float; "platinum" := 0.05%float ]}.

Definition COUPON_RATE : gmap string float :=
  {[ "WELCOME10" := 0.10%float; "VIP20" := 0.20%float; "STUDENT5" := 0.05%float ]}.

Definition VALID_CATEGORIES : gset string :=
  {[ "book"; "food"; "electronics"; "other" ]}.

(** *** Validation *)

(** The body of the loop over the items: each test that fires appends its
    message to [problems]. *)
Definition validate_item (problems : list string) (item : LineItem) : list string :=
  let problems :=
    if negb (Py.truthy (sku item)) then Py.append problems "Item sku is missing"
    else problems in
  let problems :=
    if (qty item <=? 0)%Z then Py.append problems ("Invalid qty for " +:+ sku item)
    else problems in
  let problems :=
    if (unit_price item <? 0)%float
    then Py.append problems ("Invalid price for " +:+ sku item)
    else problems in
  let problems :=
    if negb (bool_decide (category item ∈ VALID_CATEGORIES))
    then Py.append problems ("Unknown category for " +:+ sku item)
    else problems in
  problems.

(** [inv] is [None] where the caller passes [None]. *)
Definition _validate (inv : option Invoice) : result unit :=
  match inv with
  | None => Raise (ValueError "Invoice is missing")
  | Some inv =>
      let problems : list string := [] in
      let problems :=
        if negb (Py.truthy (invoice_id inv)) then Py.append problems "Missing invoice_id"
        else problems in
      let problems :=
        if negb (Py.truthy (customer_id inv)) then Py.append problems "Missing customer_id"
        else problems in
      let problems :=
        match items inv with
        | [] => Py.append problems "Invoice must contain items"
        | _ :: _ => problems
        end in
      let problems := fold_left validate_item (items inv) problems in
      match problems with
      | [] => Ok tt
      | _ :: _ => Raise (ValueError (Py.join "; " problems))
      end
  end.

(** *** Calculation helpers *)

Definition _calculate_subtotal (items : list LineItem) : result (float * float) :=
  subtotal ← Py.sum (fun i => Py.mul_int (unit_price i) (qty i)) items;
  fragile_fee ←
    Py.sum (fun i => Py.mul_int 5.0%float (qty i))
           (filter (fun i => fragile i = true) items);
  Ok (subtotal, fragile_fee).

Definition _calculate_shipping (country : string) (subtotal : float) : float :=
  let rule := default (SHIPPING_RULES !!! "DEFAULT") (SHIPPING_RULES !! country) in
  rule subtotal.

Definition _calculate_discount (inv : Invoice) (subtotal : float)
    : float * list string :=
  let warnings : list string := [] in
  let discount := 0.0%float in
  (* Membership *)
  let discount :=
    match MEMBERSHIP_DISCOUNT !! membership inv with
    | Some rate => (discount + subtotal * rate)%float
    | None => if Py.gtb subtotal 3000 then (discount + 20)%float else discount
    end in
  (* Coupon *)
  match coupon inv with
  | Some c =>
      if Py.truthy c then
        let code := Py.strip c in
        match COUPON_RATE !! code with
        | Some rate => ((discount + subtotal * rate)%float, warnings)
        | None => (discount, Py.append warnings "Unknown coupon")
        end
      else (discount, warnings)
  | None => (discount, warnings)
  end.

Definition _calculate_tax (country : string) (taxable_amount : float) : float :=
  let rate := default (TAX_RATE !!! "DEFAULT") (TAX_RATE !! country) in
  (taxable_amount * rate)%float.

(** *** Public API *)

Definition compute_total (inv : option Invoice) : result (float * list string) :=
  _ ← _validate inv;
  match inv with
  | None => Raise (ValueError "Invoice is missing") (* not reached: [_validate] raised *)
  | Some inv =>
      '(subtotal, fragile_fee) ← _calculate_subtotal (items inv);
      let shipping := _calculate_shipping (country inv) subtotal in
      let '(discount, warnings) := _calculate_discount inv subtotal in
      let tax := _calculate_tax (country inv) (subtotal - discount)%float in
      let total := (subtotal + shipping + fragile_fee + tax - discount)%float in
      let total := if (total <? 0)%float then 0%float else total in
      let warnings :=
        if Py.gtb subtotal 10000
           && negb (bool_decide (is_Some (MEMBERSHIP_DISCOUNT !! membership inv)))
        then Py.append warnings "Consider membership upgrade"
        else warnings in
      Ok (total, warnings)
  end.

(** ** Reference definitions

    What the specification says in its own words, to be compared with the
    code above. *)

Module Spec.

(** The tax table: TH 7%, JP 10%, US 8%, otherwise 5%. *)
Definition tax_rate (country : string) : float :=
  if decide (country = "TH") then 0.07%float
  else if decide (country = "JP") then 0.10%float
  else if decide (country = "US") then 0.08%float
  else 0.05%float.

(** The DEFAULT shipping rule: 25 if subtotal < 200 else 0. *)
Definition default_shipping (subtotal : float) : float :=
  if (subtotal <? 200)%float then 25%float else 0%float.

(** The rate of the coupon of an invoice, when the coupon is present, not
    empty and, once trimmed, a known code. *)
Definition coupon_rate (inv : Invoice) : option float :=
  match coupon inv with
  | Some c => if decide (c = "") then None else COUPON_RATE !! Py.strip c
  | None => None
  end.

(** The defects of one line item, in the order they are looked for. *)
Definition item_defects (item : LineItem) : list string :=
  (if decide (sku item = "") then ["Item sku is missing"] else []) ++
  (if decide (qty item <= 0)%Z then ["Invalid qty for " +:+ sku item] else []) ++
  (if (unit_price item <? 0)%float then ["Invalid price for " +:+ sku item] else []) ++
  (if decide (In (category item) ["book"; "food"; "electronics"; "other"]) then []
   else ["Unknown category for " +:+ sku item]).

(** All the defects of an invoice: those of its own fields, then those of
    every item. *)
Definition invoice_defects (inv : Invoice) : list string :=
  (if decide (invoice_id inv = "") then ["Missing invoice_id"] else []) ++
  (if decide (customer_id inv = "") then ["Missing customer_id"] else []) ++
  (if decide (items inv = []) then ["Invoice must contain items"] else []) ++
  concat (map item_defects (items inv)).

(** [s] occurs in [t]. *)
Definition substring (s t : string) : Prop :=
  exists pre post : string, t = pre +:+ s +:+ post.

(** Letter case, on the letters A-Z. *)
Definition lower_char (c : ascii) : ascii :=
  let n := N_of_ascii c in
  if ((65 <=? n) && (n <=? 90))%N then ascii_of_N (n + 32) else c.

Fixpoint lower (s : string) : string :=
  match s with
  | EmptyString => EmptyString
  | String c s' => String (lower_char c) (lower s')
  end.

(** [a] is [b] up to the case of its letters, and is not [b]. *)
Definition differs_only_in_case (a b : string) : Prop :=
  a <> b /\ lower a = lower b.

(** The same invoice with the coupon taken away. *)
Definition without_coupon (inv : Invoice) : Invoice :=
  mkInvoice (invoice_id inv) (customer_id inv) (country inv) (membership inv)
    None (items inv).

End Spec.

(** ** Inputs used in the examples *)

(** The line item of the end-to-end example. *)
Definition item_A : LineItem := mkLineItem "A" "book" 100 2 true.

(** The invoice of the end-to-end example; the two identifiers are left
    open, any non-empty ones do. *)
Definition example_invoice (iid cid : string) : Invoice :=
  mkInvoice iid cid "TH" "" None [item_A].

(** An invoice with one line of [price] for one unit of a book. *)
Definition single_line (country membership : string) (coupon : option string)
    (price : float) : Invoice :=
  mkInvoice "INV-3" "CUST-3" country membership coupon
    [mkLineItem "C" "book" price 1 false].

(** One line of ten units at 1e308 each, bought by a gold member: every
    field is valid, and the subtotal exceeds the largest finite float. *)
Definition overflow_invoice : Invoice :=
  mkInvoice "INV-2" "CUST-2" "TH" "gold" None
    [mkLineItem "B" "book" 1e308 10 false].

(** An invoice with five defects at once. *)
Definition defective_invoice : Invoice :=
  mkInvoice "" "CUST-4" "TH" "" None
    [mkLineItem "D" "book" 10 0 false;
     mkLineItem "" "toy" (-1) 3 false].

(** ** More reference definitions and inputs *)

(** The same invoice with another coupon. *)
Definition with_coupon (inv : Invoice) (c : option string) : Invoice :=
  mkInvoice (invoice_id inv) (customer_id inv) (country inv) (membership inv)
    c (items inv).

(** A line item that none of the four tests of the validation loop
    reports. *)
Definition valid_item (i : LineItem) : Prop :=
  sku i <> "" /\ (0 < qty i)%Z /\ (unit_price i <? 0)%float = false /\
  In (category i) ["book"; "food"; "electronics"; "other"].

(** Every character of [s] is one that [strip] removes. *)
Fixpoint blank (s : string) : bool :=
  match s with
  | EmptyString => true
  | String c s' => Py.isspace c && blank s'
  end.

(** A valid line whose quantity, 2^1024, has no float. *)
Definition huge_quantity_invoice : Invoice :=
  mkInvoice "INV-5" "CUST-5" "TH" "" None
    [mkLineItem "E" "book" 1 (2 ^ 1024) false].

(** A number of [spec_float] that is not below zero: not a number, or of
    positive sign, or a zero. *)
Definition SFnot_negative (x : spec_float) : Prop :=
  SFltb x (S754_zero false) = false.

(** ** Proof tools *)

(** Case analysis on two integers or two positive numbers that the goal or
    a hypothesis compares. *)
Ltac cmp_cases :=
  repeat match goal with
  | H : context [Z.compare ?a ?b] |- _ => destruct (Z.compare_spec a b)
  | |- context [Z.compare ?a ?b] => destruct (Z.compare_spec a b)
  | H : context [Pos.compare_cont Eq ?a ?b] |- _ =>
      change (Pos.compare_cont Eq a b) with (Pos.compare a b) in *;
      destruct (Pos.compare_spec a b)
  | |- context [Pos.compare_cont Eq ?a ?b] =>
      change (Pos.compare_cont Eq a b) with (Pos.compare a b) in *;
      destruct (Pos.compare_spec a b)
  end;
  simpl in *; try discriminate; try reflexivity; try lia.

(** Case analysis on a proposition that is tested both by [decide] and by
    [bool_decide]. *)
Ltac decide_both P :=
  let H := fresh "H" in
  destruct (decide P) as [H|H];
  [rewrite ?(bool_decide_true P) by exact H
  |rewrite ?(bool_decide_false P) by exact H].

(** The numbers [prec], [emax] and [emin] of binary64, for [lia]. *)
Ltac binary64 := cbv delta [fexp SpecFloat.emin prec emax] in *; cbv beta in *.

(** ** Float facts

    The comparisons, the subtraction, the multiplication and the conversion
    of integers of the primitive floats, read through their specification
    on [spec_float]. *)

Module FloatFacts.
Local Open Scope float_scope.

Abbreviation emin := (SpecFloat.emin prec emax).

(** *** Comparisons *)

Lemma SFleb_not_ltb a b : SFleb a b = true -> SFltb b a = false.
Proof.
  unfold SFleb, SFltb.
  destruct a as [[]|[]| |[] m1 e1], b as [[]|[]| |[] m2 e2]; simpl;
    try discriminate; try reflexivity; cmp_cases.
Qed.

Lemma SFltb_leb_trans a b x :
  SFltb a b = true -> SFleb b x = true -> SFltb x a = false.
Proof.
  unfold SFleb, SFltb.
  destruct a as [[]|[]| |[] m1 e1], b as [[]|[]| |[] m2 e2],
           x as [[]|[]| |[] m3 e3]; simpl;
    try discriminate; try reflexivity; cmp_cases.
Qed.

(** [x <= y] excludes [y < x]. *)
Lemma leb_not_ltb x y : (x <=? y) = true -> (y <? x) = false.
Proof.
  rewrite FloatAxioms.leb_spec, FloatAxioms.ltb_spec. apply SFleb_not_ltb.
Qed.

(** [a < b <= x] excludes [x < a]. *)
Lemma ltb_leb_trans a b x :
  (a <? b) = true -> (b <=? x) = true -> (x <? a) = false.
Proof.
  rewrite !FloatAxioms.ltb_spec, FloatAxioms.leb_spec. apply SFltb_leb_trans.
Qed.

Lemma is_nan_spec x : is_nan x = true <-> Prim2SF x = S754_nan.
Proof.
  unfold is_nan. rewrite FloatAxioms.eqb_spec. unfold SFeqb.
  destruct (Prim2SF x) as [[]|[]| |[] m e] eqn:E; simpl;
    rewrite ?Z.compare_refl, ?Pos.compare_cont_refl; simpl; split; congruence.
Qed.

(** A float that is not below zero is at least zero, or not a number. *)
Lemma not_ltb_zero t : (t <? 0) = false -> (0 <=? t) = true \/ is_nan t = true.
Proof.
  rewrite is_nan_spec, FloatAxioms.ltb_spec, FloatAxioms.leb_spec.
  change (Prim2SF 0) with (S754_zero false).
  unfold SFltb, SFleb.
  destruct (Prim2SF t) as [[]|[]| |[] m e]; simpl; intros; auto; discriminate.
Qed.

(** *** Rounding keeps a positive mantissa positive *)

Local Open Scope Z_scope.

Lemma shr_1_m (mrs : shr_record) :
  0 <= shr_m mrs -> shr_m (shr_1 mrs) = shr_m mrs / 2.
Proof.
  destruct mrs as [m r s]. simpl. intros Hm.
  destruct m as [|[p|p|]|p]; simpl shr_m.
  - reflexivity.
  - rewrite (Pos2Z.inj_xI p). apply Z.div_unique with 1; lia.
  - rewrite (Pos2Z.inj_xO p). apply Z.div_unique with 0; lia.
  - reflexivity.
  - lia.
Qed.

Lemma iter_shr_1_m (p : positive) (mrs : shr_record) :
  0 <= shr_m mrs ->
  shr_m (SpecFloat.iter_pos shr_1 p mrs) = shr_m mrs / 2 ^ Zpos p.
Proof.
  revert mrs. induction p as [p IH|p IH|]; intros mrs Hm; simpl SpecFloat.iter_pos.
  - assert (H1 : 0 <= shr_m (shr_1 mrs)) by (rewrite shr_1_m by lia; apply Z.div_pos; lia).
    assert (H2 : 0 <= shr_m (SpecFloat.iter_pos shr_1 p (shr_1 mrs)))
      by (rewrite IH by lia; apply Z.div_pos; lia).
    rewrite IH, IH, shr_1_m by lia.
    rewrite !Z.div_div by lia. f_equal.
    rewrite (Pos2Z.inj_xI p), Z.pow_add_r, Z.pow_1_r by lia.
    replace (2 * Zpos p) with (Zpos p + Zpos p) by lia.
    rewrite Z.pow_add_r by lia. lia.
  - assert (H2 : 0 <= shr_m (SpecFloat.iter_pos shr_1 p mrs))
      by (rewrite IH by lia; apply Z.div_pos; lia).
    rewrite IH, IH by lia.
    rewrite !Z.div_div by lia. f_equal.
    rewrite (Pos2Z.inj_xO p).
    replace (2 * Zpos p) with (Zpos p + Zpos p) by lia.
    rewrite Z.pow_add_r by lia. lia.
  - rewrite shr_1_m by lia. reflexivity.
Qed.

Lemma digits2_pos_bounds (m : positive) :
  2 ^ (Zpos (digits2_pos m) - 1) <= Zpos m < 2 ^ Zpos (digits2_pos m).
Proof.
  induction m as [m IH|m IH|]; simpl digits2_pos.
  - rewrite Pos2Z.inj_succ, (Pos2Z.inj_xI m).
    replace (Z.succ (Zpos (digits2_pos m)) - 1) with (Z.succ (Zpos (digits2_pos m) - 1)) by lia.
    rewrite !Z.pow_succ_r by lia. lia.
  - rewrite Pos2Z.inj_succ, (Pos2Z.inj_xO m).
    replace (Z.succ (Zpos (digits2_pos m)) - 1) with (Z.succ (Zpos (digits2_pos m) - 1)) by lia.
    rewrite !Z.pow_succ_r by lia. lia.
  - simpl. lia.
Qed.

Lemma shr_record_of_loc_m (m : Z) (l : location) : shr_m (shr_record_of_loc m l) = m.
Proof. destruct l as [|[]]; reflexivity. Qed.

(** Shifting a non-negative mantissa leaves it non-negative. *)
Lemma shr_fexp_nonneg (m e : Z) (l : location) :
  0 <= m -> 0 <= shr_m (fst (shr_fexp prec emax m e l)).
Proof.
  intros Hm. unfold shr_fexp, shr.
  destruct (fexp prec emax (Zdigits2 m + e) - e) as [|p|p]; simpl fst;
    rewrite ?iter_shr_1_m; rewrite ?shr_record_of_loc_m; try lia.
  apply Z.div_pos; lia.
Qed.

(** Above the least exponent, shifting a positive mantissa leaves it
    positive, and the exponent stays above the least exponent. *)
Lemma shr_fexp_pos (m : positive) (e : Z) (l : location) :
  emin <= e ->
  0 < shr_m (fst (shr_fexp prec emax (Zpos m) e l)) /\
  emin <= snd (shr_fexp prec emax (Zpos m) e l).
Proof.
  intros He. unfold shr_fexp, shr.
  destruct (fexp prec emax (Zdigits2 (Zpos m) + e) - e) as [|p|p] eqn:Hn;
    simpl fst; simpl snd; rewrite ?shr_record_of_loc_m; try lia.
  rewrite iter_shr_1_m by (rewrite shr_record_of_loc_m; lia).
  rewrite shr_record_of_loc_m.
  unfold fexp, SpecFloat.emin in *. simpl Zdigits2 in Hn.
  pose proof (digits2_pos_bounds m) as [Hlo _].
  assert (Hp : Zpos p <= Zpos (digits2_pos m) - 1)
    by (binary64; lia).
  split; [|lia].
  apply Z.div_str_pos. split; [lia|].
  eapply Z.le_trans; [|exact Hlo].
  apply Z.pow_le_mono_r; lia.
Qed.

Lemma round_nearest_even_pos (m : positive) (l : location) :
  0 < round_nearest_even (Zpos m) l.
Proof.
  unfold round_nearest_even.
  destruct l as [|[]]; try lia. destruct (Z.even (Zpos m)); lia.
Qed.

(** Rounding a non-negative mantissa gives a number of the sign asked
    for: a zero, a finite number or an infinity. *)
Lemma binary_round_aux_sign (sx : bool) (m e : Z) (l : location) :
  0 <= m ->
  match binary_round_aux prec emax sx m e l with
  | S754_zero s | S754_infinity s | S754_finite s _ _ => s = sx
  | S754_nan => False
  end.
Proof.
  intros Hm. unfold binary_round_aux.
  pose proof (shr_fexp_nonneg m e l Hm) as H1.
  destruct (shr_fexp prec emax m e l) as [mrs1 e1]. simpl fst in H1.
  set (m2 := round_nearest_even (shr_m mrs1) (loc_of_shr_record mrs1)).
  assert (H2 : 0 <= m2).
  { unfold m2, round_nearest_even.
    destruct (loc_of_shr_record mrs1) as [|[]]; try lia.
    destruct (Z.even (shr_m mrs1)); lia. }
  pose proof (shr_fexp_nonneg m2 e1 loc_Exact H2) as H3.
  destruct (shr_fexp prec emax m2 e1 loc_Exact) as [mrs3 e3]. simpl fst in H3.
  destruct (shr_m mrs3) as [|p|p]; [reflexivity| |lia].
  destruct (e3 <=? emax - prec); reflexivity.
Qed.

(** Above the least exponent, rounding a positive mantissa never gives
    zero. *)
Lemma binary_round_aux_pos (sx : bool) (m : positive) (e : Z) (l : location) :
  emin <= e ->
  match binary_round_aux prec emax sx (Zpos m) e l with
  | S754_infinity s | S754_finite s _ _ => s = sx
  | _ => False
  end.
Proof.
  intros He. unfold binary_round_aux.
  pose proof (shr_fexp_pos m e l He) as [H1 He1].
  destruct (shr_fexp prec emax (Zpos m) e l) as [mrs1 e1].
  simpl fst in H1; simpl snd in He1.
  destruct (shr_m mrs1) as [|m1|m1] eqn:Hm1; try lia.
  pose proof (round_nearest_even_pos m1 (loc_of_shr_record mrs1)) as H2.
  destruct (round_nearest_even (Zpos m1) (loc_of_shr_record mrs1)) as [|m2|m2]; try lia.
  pose proof (shr_fexp_pos m2 e1 loc_Exact He1) as [H3 _].
  destruct (shr_fexp prec emax (Zpos m2) e1 loc_Exact) as [mrs3 e3]. simpl fst in H3.
  destruct (shr_m mrs3) as [|p|p]; try lia.
  destruct (e3 <=? emax - prec); reflexivity.
Qed.

Lemma binary_round_pos (sx : bool) (m : positive) (e : Z) :
  emin <= e ->
  match binary_round prec emax sx m e with
  | S754_infinity s | S754_finite s _ _ => s = sx
  | _ => False
  end.
Proof.
  intros He. unfold binary_round, shl_align.
  destruct (fexp prec emax (Zpos (digits2_pos m) + e) - e) as [|p|p] eqn:Hn;
    try (apply binary_round_aux_pos; exact He).
  apply binary_round_aux_pos. unfold fexp. lia.
Qed.


(** *** Subtraction and multiplication: the sign of the result *)

Lemma iter_xO_value (m d : positive) :
  Zpos (Pos.iter xO m d) = Zpos m * 2 ^ Zpos d.
Proof.
  induction d as [|d IH] using Pos.peano_ind.
  - simpl Pos.iter. rewrite (Pos2Z.inj_xO m), Z.pow_1_r. lia.
  - rewrite Pos.iter_succ, (Pos2Z.inj_xO (Pos.iter xO m d)), IH.
    rewrite Pos2Z.inj_succ, Z.pow_succ_r by lia. lia.
Qed.

Lemma shl_align_value (m : positive) (e ez : Z) :
  ez <= e -> Zpos (fst (shl_align m e ez)) = Zpos m * 2 ^ (e - ez).
Proof.
  intros He. unfold shl_align.
  destruct (ez - e) as [|p|p] eqn:Hd; simpl fst.
  - replace (e - ez) with 0 by lia. simpl. lia.
  - lia.
  - rewrite iter_xO_value. replace (e - ez) with (Zpos p) by lia. reflexivity.
Qed.

(** What validity says of a finite number. *)
Lemma valid_finite (s : bool) (m : positive) (e : Z) :
  valid_binary (S754_finite s m e) = true ->
  emin <= e /\ Zpos (digits2_pos m) <= prec /\
  (emin < e -> Zpos (digits2_pos m) = prec).
Proof.
  unfold SpecFloat.valid_binary, bounded, canonical_mantissa, fexp, SpecFloat.emin.
  intros H. apply andb_prop in H as [H _]. apply Z.eqb_eq in H.
  binary64. lia.
Qed.

(** Of two valid positive numbers, the one with the smaller exponent is
    the smaller number. *)
Lemma valid_exponent_lt (s1 s2 : bool) (m1 m2 : positive) (e1 e2 : Z) :
  valid_binary (S754_finite s1 m1 e1) = true ->
  valid_binary (S754_finite s2 m2 e2) = true ->
  e1 < e2 ->
  Zpos m1 < Zpos m2 * 2 ^ (e2 - e1).
Proof.
  intros H1 H2 He.
  apply valid_finite in H1 as (Hmin1 & Hd1 & _).
  apply valid_finite in H2 as (_ & _ & Hd2).
  pose proof (digits2_pos_bounds m1) as [_ Hhi].
  pose proof (digits2_pos_bounds m2) as [Hlo _].
  rewrite Hd2 in Hlo by lia.
  assert (Hm1 : Zpos m1 < 2 ^ prec).
  { eapply Z.lt_le_trans; [exact Hhi|]. apply Z.pow_le_mono_r; lia. }
  assert (Hp : 2 ^ 1 <= 2 ^ (e2 - e1)) by (apply Z.pow_le_mono_r; lia).
  change (2 ^ 1) with 2 in Hp.
  assert (Hm2 : 2 ^ (prec - 1) * 2 <= Zpos m2 * 2 ^ (e2 - e1)).
  { apply Z.mul_le_mono_nonneg; lia. }
  change (2 ^ (prec - 1) * 2) with (2 ^ prec) in Hm2. lia.
Qed.

(** A valid [x] below a valid [y]: [x - y] is below zero. *)
Lemma SFsub_ltb (x y : spec_float) :
  valid_binary x = true -> valid_binary y = true ->
  SFltb x y = true ->
  SFltb (SF64sub x y) (S754_zero false) = true.
Proof.
  intros Hx Hy. unfold SFltb at 1.
  destruct x as [sx|sx| |sx mx ex], y as [sy|sy| |sy my ey];
    try (simpl; discriminate);
    try (destruct sx, sy; simpl; (discriminate || reflexivity)).
  intros Hlt.
  pose proof (valid_finite _ _ _ Hx) as (Hex & _ & _).
  pose proof (valid_finite _ _ _ Hy) as (Hey & _ & _).
  assert (Hz :
    cond_Zopp sx (Zpos (fst (shl_align mx ex (Z.min ex ey))))
    - cond_Zopp sy (Zpos (fst (shl_align my ey (Z.min ex ey)))) < 0).
  { rewrite !shl_align_value by lia.
    assert (0 < 2 ^ (ex - Z.min ex ey)) by (apply Z.pow_pos_nonneg; lia).
    assert (0 < 2 ^ (ey - Z.min ex ey)) by (apply Z.pow_pos_nonneg; lia).
    destruct sx, sy; simpl in Hlt; unfold cond_Zopp; try discriminate.
    - destruct (Z.compare_spec ex ey) as [He|He|He]; try discriminate.
      + subst ey. rewrite Z.min_id, Z.sub_diag, Z.pow_0_r in *.
        change (Pos.compare_cont Eq mx my) with (Pos.compare mx my) in Hlt.
        destruct (Pos.compare_spec mx my); simpl in Hlt; try discriminate. lia.
      + rewrite Z.min_r, Z.sub_diag in * by lia.
        pose proof (valid_exponent_lt _ _ _ _ _ _ Hy Hx He). rewrite Z.pow_0_r in *. lia.
    - nia.
    - destruct (Z.compare_spec ex ey) as [He|He|He]; try discriminate.
      + subst ey. rewrite Z.min_id, Z.sub_diag, Z.pow_0_r in *.
        change (Pos.compare_cont Eq mx my) with (Pos.compare mx my) in Hlt.
        destruct (Pos.compare_spec mx my); simpl in Hlt; try discriminate. lia.
      + rewrite Z.min_l, Z.sub_diag in * by lia.
        pose proof (valid_exponent_lt _ _ _ _ _ _ Hx Hy He). rewrite Z.pow_0_r in *. lia. }
  unfold SF64sub, SFsub.
  destruct (_ - _) as [|p|p]; try lia.
  unfold binary_normalize.
  pose proof (binary_round_pos true p (Z.min ex ey) ltac:(lia)) as Hr.
  destruct (binary_round prec emax true p (Z.min ex ey)) as [s|s| |s m e];
    try contradiction; subst s; reflexivity.
Qed.

(** A number below zero times a number above zero: not above zero, and
    of negative sign. *)
Lemma SFmul_neg_pos (x y : spec_float) :
  SFltb x (S754_zero false) = true ->
  SFltb (S754_zero false) y = true ->
  match SF64mul x y with
  | S754_zero s | S754_infinity s | S754_finite s _ _ => s = true
  | S754_nan => False
  end.
Proof.
  unfold SFltb.
  destruct x as [sx|sx| |sx mx ex], y as [sy|sy| |sy my ey];
    try (simpl; discriminate);
    try (destruct sx, sy; simpl; (discriminate || reflexivity)).
  destruct sx, sy; simpl SFcompare; try discriminate. intros _ _.
  unfold SF64mul, SFmul.
  apply (binary_round_aux_sign (xorb true false)). lia.
Qed.

(** *** Integers below 2^53 convert exactly *)

Lemma digits2_pos_iter_xO (m k : positive) :
  digits2_pos (Pos.iter xO m k) = (digits2_pos m + k)%positive.
Proof.
  induction k as [|k IH] using Pos.peano_ind.
  - simpl. lia.
  - rewrite Pos.iter_succ. simpl digits2_pos. rewrite IH. lia.
Qed.

(** A mantissa of full width is not touched by rounding. *)
Lemma binary_round_aux_exact (s : bool) (m : positive) (e : Z) :
  Zpos (digits2_pos m) = prec -> emin <= e <= emax - prec ->
  binary_round_aux prec emax s (Zpos m) e loc_Exact = S754_finite s m e.
Proof.
  intros Hd He.
  assert (Hf : fexp prec emax (Zdigits2 (Zpos m) + e) - e = 0).
  { simpl Zdigits2. rewrite Hd. binary64. lia. }
  unfold binary_round_aux, shr_fexp. rewrite Hf.
  cbn [shr shr_record_of_loc shr_m loc_of_shr_record round_nearest_even].
  rewrite Hf. cbn [shr shr_record_of_loc shr_m].
  destruct (Z.leb_spec e (emax - prec)); [reflexivity | lia].
Qed.

Lemma binary_round_small (s : bool) (m : positive) :
  Zpos m < 2 ^ prec ->
  exists m' e', binary_round prec emax s m 0 = S754_finite s m' e' /\
                valid_binary (S754_finite s m' e') = true.
Proof.
  intros Hm.
  pose proof (digits2_pos_bounds m) as [Hlo _].
  assert (Hd : Zpos (digits2_pos m) <= prec).
  { destruct (Z.le_gt_cases (Zpos (digits2_pos m)) prec) as [|Hgt]; [assumption|].
    assert (2 ^ prec <= 2 ^ (Zpos (digits2_pos m) - 1))
      by (apply Z.pow_le_mono_r; lia). lia. }
  unfold binary_round, shl_align.
  assert (Hf : fexp prec emax (Zpos (digits2_pos m) + 0) = Zpos (digits2_pos m) - prec).
  { binary64. lia. }
  rewrite Hf.
  destruct (Zpos (digits2_pos m) - prec - 0) as [|p|p] eqn:Hp; try lia.
  - exists m, 0. rewrite binary_round_aux_exact by (binary64; lia).
    split; [reflexivity|].
    unfold SpecFloat.valid_binary, bounded, canonical_mantissa. rewrite Hf.
    apply andb_true_intro. split; [apply Z.eqb_eq; lia | reflexivity].
  - exists (Pos.iter xO m p), (Zpos (digits2_pos m) - prec).
    assert (Hd' : Zpos (digits2_pos (Pos.iter xO m p)) = prec)
      by (rewrite digits2_pos_iter_xO; lia).
    rewrite binary_round_aux_exact
      by (try exact Hd'; binary64; lia).
    split; [reflexivity|].
    unfold SpecFloat.valid_binary, bounded, canonical_mantissa. rewrite Hd'.
    apply andb_true_intro. split; apply Z.leb_le || apply Z.eqb_eq;
      binary64; lia.
Qed.

Local Close Scope Z_scope.

Lemma is_infinity_SF2Prim_finite (s : bool) (m : positive) (e : Z) :
  valid_binary (S754_finite s m e) = true ->
  is_infinity (SF2Prim (S754_finite s m e)) = false.
Proof.
  intros Hv. unfold is_infinity.
  rewrite FloatAxioms.eqb_spec, FloatAxioms.abs_spec, FloatAxioms.Prim2SF_SF2Prim by exact Hv.
  reflexivity.
Qed.

(** [s < d] makes [s - d] negative. *)
Lemma sub_neg (s d : float) : (s <? d) = true -> (s - d <? 0) = true.
Proof.
  rewrite !FloatAxioms.ltb_spec, FloatAxioms.sub_spec.
  apply SFsub_ltb; apply FloatAxioms.Prim2SF_valid.
Qed.

(** A negative number times a positive one is negative, or the negative
    zero when the product is too small for a float. *)
Lemma mul_neg_pos (a r : float) :
  (a <? 0) = true -> (0 <? r) = true ->
  (a * r <? 0) = true \/ a * r = (-0)%float.
Proof.
  rewrite !FloatAxioms.ltb_spec. intros Ha Hr.
  pose proof (SFmul_neg_pos _ _ Ha Hr) as H.
  rewrite <- FloatAxioms.mul_spec in H.
  destruct (Prim2SF (a * r)) as [s|s| |s m e] eqn:E; try contradiction; subst s.
  - right. apply FloatAxioms.Prim2SF_inj. rewrite E. reflexivity.
  - left. reflexivity.
  - left. reflexivity.
Qed.

End FloatFacts.

(** ** Strings and tables *)

Lemma string_app_cons (x : ascii) (a b : string) :
  String x a +:+ b = String x (a +:+ b).
Proof. reflexivity. Qed.

Lemma string_app_assoc (a b c : string) : (a +:+ b) +:+ c = a +:+ (b +:+ c).
Proof.
  induction a as [|x a IH]; [reflexivity|].
  rewrite !string_app_cons, IH. reflexivity.
Qed.

Lemma string_app_nil_r (a : string) : a +:+ "" = a.
Proof.
  induction a as [|x a IH]; [reflexivity|].
  rewrite string_app_cons, IH. reflexivity.
Qed.

(** Every element of a joined list occurs in the result. *)
Lemma join_substring (sep : string) (l : list string) (d : string) :
  In d l -> Spec.substring d (Py.join sep l).
Proof.
  induction l as [|s l IH]; [intros []|].
  intros [->|Hin].
  - destruct l as [|s' l].
    + exists "", "". change (d = d +:+ ""). rewrite string_app_nil_r. reflexivity.
    + exists "", (sep +:+ Py.join sep (s' :: l)). reflexivity.
  - destruct l as [|s' l]; [destruct Hin|].
    destruct (IH Hin) as (pre & post & Hj).
    exists (s +:+ sep +:+ pre), post.
    change (Py.join sep (s :: s' :: l)) with (s +:+ sep +:+ Py.join sep (s' :: l)).
    rewrite Hj, !string_app_assoc. reflexivity.
Qed.

Lemma truthy_empty (s : string) : negb (Py.truthy s) = bool_decide (s = "").
Proof. destruct s; reflexivity. Qed.

Lemma strip_nonempty (c : string) : Py.strip c <> "" -> Py.truthy c = true.
Proof. destruct c; [intros H; exfalso; apply H; reflexivity | reflexivity]. Qed.

(** The code points below 256 that [strip] removes. *)
Example isspace_codes :
  filter (fun n => Py.isspace (ascii_of_nat n) = true) (seq 0 256)
    = [9; 10; 11; 12; 13; 28; 29; 30; 31; 32; 133; 160]%nat.
Proof. vm_compute. reflexivity. Qed.

Example strip_examples :
  Py.strip "  VIP20 " = "VIP20" /\ Py.strip "a b" = "a b" /\ Py.strip "   " = "" /\
  Py.strip "" = "".
Proof. repeat split; reflexivity. Qed.

Lemma Zleb_decide (a b : Z) : (a <=? b)%Z = bool_decide (a <= b)%Z.
Proof.
  destruct (Z.leb_spec a b);
    [rewrite bool_decide_true | rewrite bool_decide_false]; auto; lia.
Qed.

Lemma MEMBERSHIP_DISCOUNT_lookup (m : string) :
  MEMBERSHIP_DISCOUNT !! m =
    if decide (m = "gold") then Some 0.03%float
    else if decide (m = "platinum") then Some 0.05%float
    else None.
Proof.
  unfold MEMBERSHIP_DISCOUNT.
  destruct (decide (m = "gold")) as [->|]; [reflexivity|].
  destruct (decide (m = "platinum")) as [->|]; [reflexivity|].
  simplify_map_eq. reflexivity.
Qed.

Lemma MEMBERSHIP_DISCOUNT_member (m : string) :
  is_Some (MEMBERSHIP_DISCOUNT !! m) <-> m = "gold" \/ m = "platinum".
Proof.
  rewrite MEMBERSHIP_DISCOUNT_lookup.
  destruct (decide (m = "gold")); [split; eauto|].
  destruct (decide (m = "platinum")); [split; eauto|].
  split; [intros [? Hm]; discriminate | intros [Hm|Hm]; congruence].
Qed.

Lemma MEMBERSHIP_DISCOUNT_none (m : string) :
  m <> "gold" -> m <> "platinum" -> MEMBERSHIP_DISCOUNT !! m = None.
Proof.
  intros Hg Hp. rewrite MEMBERSHIP_DISCOUNT_lookup.
  destruct (decide (m = "gold")); [contradiction|].
  destruct (decide (m = "platinum")); [contradiction|]. reflexivity.
Qed.

Lemma TAX_RATE_lookup (c : string) :
  default (TAX_RATE !!! "DEFAULT") (TAX_RATE !! c) = Spec.tax_rate c.
Proof.
  unfold Spec.tax_rate, TAX_RATE.
  destruct (decide (c = "TH")) as [->|]; [reflexivity|].
  destruct (decide (c = "JP")) as [->|]; [reflexivity|].
  destruct (decide (c = "US")) as [->|]; [reflexivity|].
  destruct (decide (c = "DEFAULT")) as [->|]; [reflexivity|].
  simplify_map_eq. reflexivity.
Qed.

Lemma SHIPPING_RULES_keys (k : string) :
  is_Some (SHIPPING_RULES !! k) ->
  k = "TH" \/ k = "JP" \/ k = "US" \/ k = "DEFAULT".
Proof.
  unfold SHIPPING_RULES.
  destruct (decide (k = "TH")); [auto|].
  destruct (decide (k = "JP")); [auto|].
  destruct (decide (k = "US")); [auto|].
  destruct (decide (k = "DEFAULT")); [auto|].
  simplify_map_eq. intros [? ?]; discriminate.
Qed.

Lemma TAX_RATE_keys (k : string) :
  is_Some (TAX_RATE !! k) ->
  k = "TH" \/ k = "JP" \/ k = "US" \/ k = "DEFAULT".
Proof.
  unfold TAX_RATE.
  destruct (decide (k = "TH")); [auto|].
  destruct (decide (k = "JP")); [auto|].
  destruct (decide (k = "US")); [auto|].
  destruct (decide (k = "DEFAULT")); [auto|].
  simplify_map_eq. intros [? ?]; discriminate.
Qed.

Lemma VALID_CATEGORIES_member (c : string) :
  c ∈ VALID_CATEGORIES <-> In c ["book"; "food"; "electronics"; "other"].
Proof.
  unfold VALID_CATEGORIES. rewrite !elem_of_union, !elem_of_singleton. simpl.
  intuition congruence.
Qed.

(** ** Validation *)

(** One round of the loop appends the defects of the item. *)
Lemma validate_item_spec (problems : list string) (item : LineItem) :
  validate_item problems item = problems ++ Spec.item_defects item.
Proof.
  unfold validate_item, Spec.item_defects, Py.append.
  rewrite truthy_empty, Zleb_decide.
  rewrite (bool_decide_ext _ _ (VALID_CATEGORIES_member (category item))).
  decide_both (sku item = "");
    decide_both (qty item <= 0)%Z;
    decide_both (In (category item) ["book"; "food"; "electronics"; "other"]);
    destruct (unit_price item <? 0)%float;
    simpl; rewrite <- ?app_assoc, ?app_nil_r; reflexivity.
Qed.

(** The loop appends the defects of every item, in order. *)
Lemma validate_items_spec (its : list LineItem) (problems : list string) :
  fold_left validate_item its problems
    = problems ++ concat (map Spec.item_defects its).
Proof.
  revert problems. induction its as [|item its IH]; intros problems; simpl.
  - rewrite app_nil_r. reflexivity.
  - rewrite IH, validate_item_spec, <- app_assoc. reflexivity.
Qed.

(** [_validate] raises exactly when there is a defect, with all of them
    joined. *)
Lemma validate_spec (inv : Invoice) :
  _validate (Some inv) =
    match Spec.invoice_defects inv with
    | [] => Ok tt
    | _ :: _ => Raise (ValueError (Py.join "; " (Spec.invoice_defects inv)))
    end.
Proof.
  unfold _validate. rewrite validate_items_spec, !truthy_empty.
  unfold Spec.invoice_defects, Py.append.
  decide_both (invoice_id inv = "");
    decide_both (customer_id inv = "");
    (destruct (decide (items inv = [])) as [Hits|Hits];
       [rewrite Hits | destruct (items inv); [congruence|]]);
    simpl; reflexivity.
Qed.

(** C3: an invoice is invalid exactly when it has a defect; then
    [compute_total] raises one [ValueError] whose message is all the
    defects of the invoice fields and of every item joined with "; ", each
    of them occurring in the message; the defects of every item, whatever
    its position (empty sku, qty <= 0, negative unit_price, unknown
    category), are among them.  A missing invoice is reported at once. *)
Theorem validation_reports_every_defect (inv : Invoice) :
  (Spec.invoice_defects inv = [] <-> _validate (Some inv) = Ok tt) /\
  (Spec.invoice_defects inv <> [] ->
   compute_total (Some inv)
     = Raise (ValueError (Py.join "; " (Spec.invoice_defects inv))) /\
   forall d : string, In d (Spec.invoice_defects inv) ->
     Spec.substring d (Py.join "; " (Spec.invoice_defects inv))) /\
  (forall item : LineItem, In item (items inv) ->
     (sku item = "" -> In "Item sku is missing" (Spec.invoice_defects inv)) /\
     ((qty item <= 0)%Z ->
      In ("Invalid qty for " +:+ sku item) (Spec.invoice_defects inv)) /\
     ((unit_price item <? 0)%float = true ->
      In ("Invalid price for " +:+ sku item) (Spec.invoice_defects inv)) /\
     (~ In (category item) ["book"; "food"; "electronics"; "other"] ->
      In ("Unknown category for " +:+ sku item) (Spec.invoice_defects inv))) /\
  compute_total None = Raise (ValueError "Invoice is missing").
Proof.
  split; [|split; [|split; [|reflexivity]]].
  - rewrite validate_spec. destruct (Spec.invoice_defects inv); split; congruence.
  - intros Hd. split; [|intros d; apply join_substring].
    unfold compute_total. rewrite validate_spec.
    destruct (Spec.invoice_defects inv); [congruence | reflexivity].
  - intros item Hin.
    assert (Hsub : forall d, In d (Spec.item_defects item) ->
                             In d (Spec.invoice_defects inv)).
    { intros d Hd. unfold Spec.invoice_defects. rewrite !in_app_iff.
      right; right; right. apply in_concat. exists (Spec.item_defects item).
      split; [apply in_map, Hin | exact Hd]. }
    repeat split; intros H; apply Hsub; unfold Spec.item_defects;
      rewrite !in_app_iff.
    + left. destruct (decide (sku item = "")); [left; reflexivity | contradiction].
    + right; left. destruct (decide (qty item <= 0)%Z); [left; reflexivity | contradiction].
    + right; right; left. rewrite H. left; reflexivity.
    + right; right; right.
      destruct (decide (In (category item) ["book"; "food"; "electronics"; "other"]));
        [contradiction | left; reflexivity].
Qed.

(** The invoice with an empty id, a line of quantity 0 and a line with no
    sku, a negative price and an unknown category: one message with the
    five defects. *)
Example defective_invoice_message :
  compute_total (Some defective_invoice)
    = Raise (ValueError
        "Missing invoice_id; Invalid qty for D; Item sku is missing; Invalid price for ; Unknown category for ").
Proof. vm_compute. reflexivity. Qed.

(** ** The end-to-end example *)

(** C1, as the code computes it: for the invoice with the single item
    [{sku "A", category "book", unit_price 100, qty 2, fragile}], country
    "TH", no membership and no coupon, and any non-empty identifiers,
    [compute_total] returns total 284 with no warnings; the subtotal is
    200, the fragile fee 10, the shipping fee 60, the discount 0, and the
    tax is the binary64 product of 200 and 0.07, 14.000000000000002, whose
    excess over 14 is rounded away when the total is added up. *)
Theorem end_to_end_example (iid cid : string) :
  iid <> "" -> cid <> "" ->
  compute_total (Some (example_invoice iid cid)) = Ok (284%float, []) /\
  _calculate_subtotal (items (example_invoice iid cid)) = Ok (200%float, 10%float) /\
  _calculate_shipping (country (example_invoice iid cid)) 200 = 60%float /\
  _calculate_discount (example_invoice iid cid) 200 = (0%float, []) /\
  _calculate_tax (country (example_invoice iid cid)) (200 - 0) = 14.000000000000002%float.
Proof.
  intros Hi Hc.
  destruct iid as [|a iid]; [congruence|].
  destruct cid as [|b cid]; [congruence|].
  repeat split; vm_compute; reflexivity.
Qed.

Lemma end_to_end_example_witness :
  "INV-1" <> "" /\ "CUST-1" <> "" /\
  compute_total (Some (example_invoice "INV-1" "CUST-1")) = Ok (284%float, []) /\
  _calculate_subtotal (items (example_invoice "INV-1" "CUST-1")) = Ok (200%float, 10%float) /\
  _calculate_shipping (country (example_invoice "INV-1" "CUST-1")) 200 = 60%float /\
  _calculate_discount (example_invoice "INV-1" "CUST-1") 200 = (0%float, []) /\
  _calculate_tax (country (example_invoice "INV-1" "CUST-1")) (200 - 0) = 14.000000000000002%float.
Proof.
  split; [discriminate|]. split; [discriminate|].
  apply (end_to_end_example "INV-1" "CUST-1"); discriminate.
Defined.

(** C1 as written lists the tax as 14: on the example invoice the total,
    the subtotal, the fees and the discount are as listed, and the tax the
    code computes is not 14, so the breakdown does not hold as a whole. *)
Lemma end_to_end_tax_is_not_14 :
  ~ (compute_total (Some (example_invoice "INV-1" "CUST-1")) = Ok (284%float, []) /\
     _calculate_subtotal (items (example_invoice "INV-1" "CUST-1")) = Ok (200%float, 10%float) /\
     _calculate_shipping (country (example_invoice "INV-1" "CUST-1")) 200 = 60%float /\
     _calculate_discount (example_invoice "INV-1" "CUST-1") 200 = (0%float, []) /\
     _calculate_tax (country (example_invoice "INV-1" "CUST-1")) (200 - 0) = 14%float).
Proof.
  intros (_ & _ & _ & _ & H).
  apply (f_equal (fun x => (x =? 14)%float)) in H.
  vm_compute in H. discriminate.
Qed.

(** ** Shipping *)

Lemma shipping_US (S : float) :
  _calculate_shipping "US" S =
    if (S <? 100)%float then 15%float
    else if (S <? 300)%float then 8%float else 0%float.
Proof. reflexivity. Qed.

Lemma shipping_of_unknown_country (c : string) (s : float) :
  c <> "TH" -> c <> "JP" -> c <> "US" -> c <> "DEFAULT" ->
  _calculate_shipping c s = Spec.default_shipping s.
Proof.
  intros. unfold _calculate_shipping, SHIPPING_RULES. simplify_map_eq. reflexivity.
Qed.

(** C6: with country "US" the shipping fee is 15 when S < 100, 8 when
    100 <= S < 300 and 0 when S >= 300; at the boundaries, 99.99 gives 15,
    100 gives 8, 299.99 gives 8 and 300 gives 0. *)
Theorem us_shipping_steps (S : float) :
  ((S <? 100)%float = true -> _calculate_shipping "US" S = 15%float) /\
  ((100 <=? S)%float = true -> (S <? 300)%float = true ->
   _calculate_shipping "US" S = 8%float) /\
  ((300 <=? S)%float = true -> _calculate_shipping "US" S = 0%float) /\
  _calculate_shipping "US" 99.99 = 15%float /\
  _calculate_shipping "US" 100 = 8%float /\
  _calculate_shipping "US" 299.99 = 8%float /\
  _calculate_shipping "US" 300 = 0%float.
Proof.
  rewrite !shipping_US.
  split; [intros ->; reflexivity|].
  split; [intros H1 H2; rewrite (FloatFacts.leb_not_ltb _ _ H1), H2; reflexivity|].
  split; [|repeat split; vm_compute; reflexivity].
  intros H3. rewrite (FloatFacts.leb_not_ltb _ _ H3).
  rewrite (FloatFacts.ltb_leb_trans 100 300 S); [reflexivity|reflexivity|assumption].
Qed.

(** ** Discount *)

(** The warnings of the discount step: none, or the coupon warning alone. *)
Lemma discount_warnings (inv : Invoice) (s : float) :
  snd (_calculate_discount inv s) = [] \/
  snd (_calculate_discount inv s) = ["Unknown coupon"].
Proof.
  unfold _calculate_discount.
  destruct (coupon inv) as [c|]; [|auto].
  destruct (Py.truthy c); [|auto].
  destruct (COUPON_RATE !! Py.strip c); auto.
Qed.

(** The discount, given the outcome [m] of the membership lookup: the
    membership or high-value component, plus the coupon percentage. *)
Lemma calculate_discount_spec (inv : Invoice) (s : float) (m : option float) :
  MEMBERSHIP_DISCOUNT !! membership inv = m ->
  fst (_calculate_discount inv s) =
    (let component :=
       match m with
       | Some rate => (0 + s * rate)%float
       | None => if Py.gtb s 3000 then (0 + 20)%float else 0%float
       end in
     match Spec.coupon_rate inv with
     | Some c => (component + s * c)%float
     | None => component
     end).
Proof.
  intros Hm. unfold _calculate_discount, Spec.coupon_rate. rewrite Hm. cbv zeta.
  destruct (coupon inv) as [c|]; [|reflexivity].
  destruct c as [|x c]; [reflexivity|]. simpl Py.truthy. cbv iota.
  destruct (decide (String x c = "")) as [Hc|_]; [discriminate|].
  destruct (COUPON_RATE !! Py.strip (String x c)); reflexivity.
Qed.

(** C5: for every invoice whose membership is "gold" or "platinum", the
    discount is the membership percentage of the subtotal (3% or 5%), plus
    the coupon percentage when the coupon is a known code; the flat bonus
    of 20 is not in it, whatever the subtotal.  In particular the invoice
    with one line of 4000, membership "platinum" and no coupon is valid,
    has subtotal 4000 (above 3000) and discount exactly 200. *)
Theorem membership_excludes_flat_bonus (inv : Invoice) (s r : float) :
  membership inv = "gold" /\ r = 0.03%float \/
  membership inv = "platinum" /\ r = 0.05%float ->
  fst (_calculate_discount inv s) =
    match Spec.coupon_rate inv with
    | Some c => (0 + s * r + s * c)%float
    | None => (0 + s * r)%float
    end /\
  _validate (Some (single_line "TH" "platinum" None 4000)) = Ok tt /\
  _calculate_subtotal (items (single_line "TH" "platinum" None 4000))
    = Ok (4000%float, 0%float) /\
  Py.gtb 4000 3000 = true /\
  _calculate_discount (single_line "TH" "platinum" None 4000) 4000 = (200%float, []).
Proof.
  intros Hm. split; [|repeat split; vm_compute; reflexivity].
  apply (calculate_discount_spec inv s (Some r)).
  rewrite MEMBERSHIP_DISCOUNT_lookup.
  destruct Hm as [[-> ->] | [-> ->]]; reflexivity.
Qed.

Lemma membership_excludes_flat_bonus_witness :
  (membership (single_line "TH" "platinum" None 4000) = "gold" /\ 0.05%float = 0.03%float \/
   membership (single_line "TH" "platinum" None 4000) = "platinum" /\ 0.05%float = 0.05%float) /\
  fst (_calculate_discount (single_line "TH" "platinum" None 4000) 4000) =
    match Spec.coupon_rate (single_line "TH" "platinum" None 4000) with
    | Some c => (0 + 4000 * 0.05 + 4000 * c)%float
    | None => (0 + 4000 * 0.05)%float
    end /\
  _validate (Some (single_line "TH" "platinum" None 4000)) = Ok tt /\
  _calculate_subtotal (items (single_line "TH" "platinum" None 4000))
    = Ok (4000%float, 0%float) /\
  Py.gtb 4000 3000 = true /\
  _calculate_discount (single_line "TH" "platinum" None 4000) 4000 = (200%float, []).
Proof.
  split; [right; split; reflexivity|].
  apply (membership_excludes_flat_bonus (single_line "TH" "platinum" None 4000) 4000 0.05).
  right; split; reflexivity.
Defined.

(** Without a membership the same subtotal earns the flat bonus. *)
Example flat_bonus_without_membership :
  _calculate_discount (single_line "TH" "" None 3500) 3500 = (20%float, []) /\
  _calculate_discount (single_line "TH" "" None 3000) 3000 = (0%float, []).
Proof. split; vm_compute; reflexivity. Qed.

(** C4, as the code computes it: the coupon is trimmed and then looked up
    as it is, letter case included.  For every invoice with no recognized
    membership and subtotal 1000, a coupon that trims to "VIP20" (such as
    "VIP20 ") earns the VIP20 rate: the discount is 200 and there is no
    warning; a coupon that trims to "vip20" (such as "vip20 ") is not a
    known code: the discount is 0 and "Unknown coupon" is produced. *)
Theorem coupon_trimmed_then_matched_exactly (inv : Invoice) (c : string) :
  membership inv <> "gold" -> membership inv <> "platinum" ->
  coupon inv = Some c ->
  Py.strip "VIP20 " = "VIP20" /\ Py.strip "vip20 " = "vip20" /\
  (Py.strip c = "VIP20" -> _calculate_discount inv 1000 = (200%float, [])) /\
  (Py.strip c = "vip20" -> _calculate_discount inv 1000 = (0%float, ["Unknown coupon"])).
Proof.
  intros Hg Hp Hc.
  split; [reflexivity|]. split; [reflexivity|].
  unfold _calculate_discount.
  rewrite (MEMBERSHIP_DISCOUNT_none _ Hg Hp), Hc.
  split; intros Hs; rewrite (strip_nonempty c) by (rewrite Hs; discriminate);
    rewrite Hs; reflexivity.
Qed.

Lemma coupon_trimmed_then_matched_exactly_witness :
  membership (single_line "TH" "" (Some "VIP20 ") 1000) <> "gold" /\
  membership (single_line "TH" "" (Some "VIP20 ") 1000) <> "platinum" /\
  coupon (single_line "TH" "" (Some "VIP20 ") 1000) = Some "VIP20 " /\
  Py.strip "VIP20 " = "VIP20" /\ Py.strip "vip20 " = "vip20" /\
  (Py.strip "VIP20 " = "VIP20" ->
   _calculate_discount (single_line "TH" "" (Some "VIP20 ") 1000) 1000 = (200%float, [])) /\
  (Py.strip "VIP20 " = "vip20" ->
   _calculate_discount (single_line "TH" "" (Some "VIP20 ") 1000) 1000
     = (0%float, ["Unknown coupon"])).
Proof.
  split; [discriminate|]. split; [discriminate|]. split; [reflexivity|].
  apply (coupon_trimmed_then_matched_exactly
           (single_line "TH" "" (Some "VIP20 ") 1000) "VIP20 ");
    [discriminate | discriminate | reflexivity].
Defined.

(** C4 as written: the invoice with one line of 1000, no membership and
    coupon "vip20 " is valid and has subtotal 1000; the coupon is trimmed
    to "vip20", which is not a key of [COUPON_RATE]; the discount is 0, not
    200, and the "Unknown coupon" warning is produced. *)
Lemma lowercase_coupon_is_unknown :
  _validate (Some (single_line "TH" "" (Some "vip20 ") 1000)) = Ok tt /\
  _calculate_subtotal (items (single_line "TH" "" (Some "vip20 ") 1000))
    = Ok (1000%float, 0%float) /\
  Py.strip "vip20 " = "vip20" /\
  COUPON_RATE !! "vip20" = None /\
  _calculate_discount (single_line "TH" "" (Some "vip20 ") 1000) 1000
    = (0%float, ["Unknown coupon"]) /\
  _calculate_discount (single_line "TH" "" (Some "vip20 ") 1000) 1000
    <> (200%float, []) /\
  exists total : float,
    compute_total (Some (single_line "TH" "" (Some "vip20 ") 1000))
      = Ok (total, ["Unknown coupon"]).
Proof.
  repeat split; try (vm_compute; reflexivity).
  - vm_compute. discriminate.
  - eexists. vm_compute. reflexivity.
Qed.

(** C9: for every invoice whose coupon is present but is the empty
    string, the discount step gives what it gives with the coupon absent:
    the membership or high-value component alone, and no warning; and so
    does [compute_total] as a whole. *)
Theorem empty_coupon_is_no_coupon (inv : Invoice) :
  coupon inv = Some "" ->
  (forall s : float,
     _calculate_discount inv s = _calculate_discount (Spec.without_coupon inv) s /\
     fst (_calculate_discount inv s) =
       match MEMBERSHIP_DISCOUNT !! membership inv with
       | Some rate => (0 + s * rate)%float
       | None => if Py.gtb s 3000 then (0 + 20)%float else 0%float
       end /\
     ~ In "Unknown coupon" (snd (_calculate_discount inv s))) /\
  compute_total (Some inv) = compute_total (Some (Spec.without_coupon inv)).
Proof.
  intros Hc. destruct inv as [iid cid ctry mem cpn its]. simpl in Hc. subst cpn.
  split; [|reflexivity].
  intros s. unfold _calculate_discount, Spec.without_coupon. simpl.
  destruct (MEMBERSHIP_DISCOUNT !! mem); repeat split; auto.
Qed.

Lemma empty_coupon_is_no_coupon_witness :
  coupon (single_line "US" "gold" (Some "") 4000) = Some "" /\
  (forall s : float,
     _calculate_discount (single_line "US" "gold" (Some "") 4000) s =
       _calculate_discount (Spec.without_coupon (single_line "US" "gold" (Some "") 4000)) s /\
     fst (_calculate_discount (single_line "US" "gold" (Some "") 4000) s) =
       match MEMBERSHIP_DISCOUNT !! membership (single_line "US" "gold" (Some "") 4000) with
       | Some rate => (0 + s * rate)%float
       | None => if Py.gtb s 3000 then (0 + 20)%float else 0%float
       end /\
     ~ In "Unknown coupon" (snd (_calculate_discount (single_line "US" "gold" (Some "") 4000) s))) /\
  compute_total (Some (single_line "US" "gold" (Some "") 4000)) =
    compute_total (Some (Spec.without_coupon (single_line "US" "gold" (Some "") 4000))).
Proof.
  split; [reflexivity|].
  apply (empty_coupon_is_no_coupon (single_line "US" "gold" (Some "") 4000)).
  reflexivity.
Defined.

(** A coupon of blanks is not empty: it is trimmed to the empty string,
    which is not a known code. *)
Example blank_coupon_is_unknown :
  _calculate_discount (single_line "US" "gold" (Some "  ") 4000) 4000
    = (120%float, ["Unknown coupon"]).
Proof. vm_compute. reflexivity. Qed.

(** ** Tax *)

Lemma tax_rate_positive (c : string) : (0 <? Spec.tax_rate c)%float = true.
Proof. unfold Spec.tax_rate. repeat case_decide; reflexivity. Qed.

Lemma tax_rate_of_unknown_country (c : string) :
  c <> "TH" -> c <> "JP" -> c <> "US" -> Spec.tax_rate c = 0.05%float.
Proof. intros. unfold Spec.tax_rate. repeat case_decide; congruence. Qed.

(** The rate is looked up by country, the amount multiplied as it is. *)
Lemma calculate_tax_spec (c : string) (a : float) :
  _calculate_tax c a = (a * Spec.tax_rate c)%float.
Proof. unfold _calculate_tax. rewrite TAX_RATE_lookup. reflexivity. Qed.

(** A discount of 300 on a subtotal of 100: the base is -200 and the
    tax of each country is negative. *)
Example negative_tax :
  Py.gtb 300 100 = true /\
  _calculate_tax "TH" (100 - 300) = (-14.000000000000002)%float /\
  _calculate_tax "JP" (100 - 300) = (-20)%float /\
  _calculate_tax "US" (100 - 300) = (-16)%float /\
  _calculate_tax "FR" (100 - 300) = (-10)%float.
Proof. repeat split; vm_compute; reflexivity. Qed.

(** ** Letter case *)

(** A string that is a country key up to case, and not that key, is no
    country key. *)
Lemma case_variant_of_country_key (c k : string) :
  k = "TH" \/ k = "JP" \/ k = "US" \/ k = "DEFAULT" ->
  Spec.differs_only_in_case c k ->
  c <> "TH" /\ c <> "JP" /\ c <> "US" /\ c <> "DEFAULT".
Proof.
  intros Hk [Hne Hl].
  destruct Hk as [->|[->|[->| ->]]]; repeat split; intros ->;
    solve [congruence | vm_compute in Hl; discriminate].
Qed.

Lemma case_variant_of_membership_key (m k : string) :
  k = "gold" \/ k = "platinum" ->
  Spec.differs_only_in_case m k ->
  m <> "gold" /\ m <> "platinum".
Proof.
  intros Hk [Hne Hl].
  destruct Hk as [->| ->]; repeat split; intros ->;
    solve [congruence | vm_compute in Hl; discriminate].
Qed.

(** "th" and "us" against "TH" and "US". *)
Example lower_case_country :
  is_Some (SHIPPING_RULES !! "TH") /\ is_Some (TAX_RATE !! "US") /\
  Spec.differs_only_in_case "th" "TH" /\ Spec.differs_only_in_case "us" "US" /\
  _calculate_shipping "th" 100 = 25%float /\ _calculate_shipping "TH" 100 = 60%float /\
  _calculate_shipping "us" 100 = 25%float /\ _calculate_shipping "US" 100 = 8%float /\
  _calculate_tax "th" 100 = 5%float /\ _calculate_tax "us" 100 = 5%float.
Proof.
  repeat split; try discriminate; try (vm_compute; reflexivity); eexists; reflexivity.
Qed.

(** "Gold" against "gold". *)
Example capitalised_membership :
  Spec.differs_only_in_case "Gold" "gold" /\
  _calculate_discount (single_line "th" "Gold" None 20000) 20000 = (20%float, []) /\
  compute_total (Some (single_line "th" "Gold" None 20000))
    = Ok (20979%float, ["Consider membership upgrade"]).
Proof.
  repeat split; try discriminate; vm_compute; reflexivity.
Qed.

(** ** [compute_total] returns

    The only exception after validation is the [OverflowError] of a
    quantity that has no float; quantities below 2^53 are floats. *)

Lemma float_of_int_small (n : Z) :
  (Z.abs n < 2 ^ 53)%Z -> exists y : float, Py.float_of_int n = Ok y.
Proof.
  intros Hn. unfold Py.float_of_int, binary_normalize.
  destruct n as [|m|m].
  - eexists. reflexivity.
  - destruct (FloatFacts.binary_round_small false m) as (m' & e' & -> & Hv); [exact Hn|].
    rewrite (FloatFacts.is_infinity_SF2Prim_finite _ _ _ Hv). eexists. reflexivity.
  - destruct (FloatFacts.binary_round_small true m) as (m' & e' & -> & Hv); [exact Hn|].
    rewrite (FloatFacts.is_infinity_SF2Prim_finite _ _ _ Hv). eexists. reflexivity.
Qed.

(** The first integer that has no float, and the one before it. *)
Example float_of_int_overflow :
  Py.float_of_int (2 ^ 1024 - 2 ^ 970) = Raise OverflowError /\
  Py.float_of_int (2 ^ 1024 - 2 ^ 970 - 1) = Ok 1.7976931348623157e308%float /\
  Py.float_of_int 2 = Ok 2%float.
Proof. repeat split; vm_compute; reflexivity. Qed.

Lemma sum_from_returns {A : Type} (f : A -> result float) (l : list A) :
  Forall (fun i => exists y, f i = Ok y) l ->
  forall acc : float, exists r : float, Py.sum_from f l acc = Ok r.
Proof.
  induction 1 as [|i l [y Hy] _ IH]; intros acc; simpl.
  - eexists. reflexivity.
  - rewrite Hy. simpl. apply IH.
Qed.

Lemma Forall_fragile (P : LineItem -> Prop) (its : list LineItem) :
  Forall P its -> Forall P (filter (fun i => fragile i = true) its).
Proof.
  induction 1 as [|i its Hi _ IH]; [constructor|].
  rewrite filter_cons. destruct (decide (fragile i = true)); auto.
Qed.

Lemma calculate_subtotal_returns (its : list LineItem) :
  Forall (fun i => (Z.abs (qty i) < 2 ^ 53)%Z) its ->
  exists s ff : float, _calculate_subtotal its = Ok (s, ff).
Proof.
  intros Hq. unfold _calculate_subtotal, Py.sum.
  assert (Hmul : forall x : LineItem -> float,
            Forall (fun i => exists y, Py.mul_int (x i) (qty i) = Ok y) its).
  { intros x. eapply Forall_impl; [exact Hq|]. intros i Hi. simpl in Hi.
    destruct (float_of_int_small (qty i) Hi) as [y Hy].
    unfold Py.mul_int. rewrite Hy. eexists. reflexivity. }
  destruct (sum_from_returns _ _ (Hmul unit_price) 0%float) as [s ->]. simpl.
  destruct (sum_from_returns _ _
              (Forall_fragile _ _ (Hmul (fun _ => 5.0%float))) 0%float)
    as [ff ->].
  exists s, ff. reflexivity.
Qed.

(** ** [compute_total] on a valid invoice *)

Section ValidInvoice.

(** An invoice that passes validation, with the subtotal and the fragile
    fee computed from its items. *)
Variable inv : Invoice.
Variables s ff : float.
Hypothesis Hvalid : _validate (Some inv) = Ok tt.
Hypothesis Hsubtotal : _calculate_subtotal (items inv) = Ok (s, ff).

(** The rest of [compute_total] is straight-line code. *)
Lemma compute_total_valid :
  compute_total (Some inv) =
    Ok (let d := fst (_calculate_discount inv s) in
        let total :=
          (s + _calculate_shipping (country inv) s + ff
           + _calculate_tax (country inv) (s - d) - d)%float in
        if (total <? 0)%float then 0%float else total,
        snd (_calculate_discount inv s) ++
        if Py.gtb s 10000
           && negb (bool_decide (is_Some (MEMBERSHIP_DISCOUNT !! membership inv)))
        then ["Consider membership upgrade"] else []).
Proof.
  unfold compute_total. rewrite Hvalid. simpl. rewrite Hsubtotal. simpl.
  destruct (_calculate_discount inv s) as [d w]. simpl.
  destruct (Py.gtb s 10000 && _); unfold Py.append; rewrite ?app_nil_r; reflexivity.
Qed.

(** C7: for every valid invoice the tax is (subtotal - discount) times the
    rate of the country (TH 0.07, JP 0.10, US 0.08, otherwise 0.05), and it
    enters the sum subtotal + shipping + fragile_fee + tax - discount as it
    is, before the clamp at zero.  The taxable base is not clamped: for
    any subtotal and discount with discount > subtotal, the base is
    negative and so is the tax computed from it (the negative zero when
    the product is too small for a float). *)
Theorem tax_on_unclamped_base :
  let d := fst (_calculate_discount inv s) in
  let tax := ((s - d) * Spec.tax_rate (country inv))%float in
  _calculate_tax (country inv) (s - d) = tax /\
  (exists warnings : list string,
     compute_total (Some inv) =
       Ok (let total := (s + _calculate_shipping (country inv) s + ff + tax - d)%float in
           if (total <? 0)%float then 0%float else total,
           warnings)) /\
  (forall (c : string) (s' d' : float),
     Py.gtb d' s' = true ->
     (s' - d' <? 0)%float = true /\
     _calculate_tax c (s' - d') = ((s' - d') * Spec.tax_rate c)%float /\
     ((_calculate_tax c (s' - d') <? 0)%float = true \/
      _calculate_tax c (s' - d') = (-0)%float)).
Proof.
  intros d tax. split; [apply calculate_tax_spec|]. split.
  - rewrite compute_total_valid. eexists.
    cbv zeta. rewrite calculate_tax_spec. reflexivity.
  - intros c s' d' Hgt. unfold Py.gtb in Hgt.
    pose proof (FloatFacts.sub_neg s' d' Hgt) as Hbase.
    rewrite calculate_tax_spec. repeat split; [exact Hbase|].
    apply FloatFacts.mul_neg_pos; [exact Hbase | apply tax_rate_positive].
Qed.

(** C2, as the code computes it: for every invoice that passes validation
    and whose subtotal is computed (no quantity is too large for a
    float), [compute_total] returns a total that is never below zero: it
    is at least 0, or it is not a number, which the test [total < 0] lets
    through.  Whenever the sum subtotal + shipping + fragile_fee + tax -
    discount is negative, the returned total is exactly 0. *)
Theorem total_not_negative :
  exists (total : float) (warnings : list string),
    compute_total (Some inv) = Ok (total, warnings) /\
    (total <? 0)%float = false /\
    ((0 <=? total)%float = true \/ is_nan total = true) /\
    (let d := fst (_calculate_discount inv s) in
     (s + _calculate_shipping (country inv) s + ff
      + _calculate_tax (country inv) (s - d) - d <? 0)%float = true ->
     total = 0%float).
Proof.
  rewrite compute_total_valid.
  eexists _, _. split; [reflexivity|]. cbv zeta.
  set (raw := (_ - _)%float).
  destruct (raw <? 0)%float eqn:Hraw.
  - repeat split; auto.
  - repeat split; [assumption| |discriminate].
    apply FloatFacts.not_ltb_zero, Hraw.
Qed.

(** C8: for every valid invoice, the warnings returned contain "Consider
    membership upgrade" exactly when the subtotal is above 10000 and the
    membership is neither "gold" nor "platinum"; when the list also has
    "Unknown coupon", the coupon warning comes first. *)
Theorem membership_upgrade_warning :
  exists (total : float) (warnings : list string),
    compute_total (Some inv) = Ok (total, warnings) /\
    (In "Consider membership upgrade" warnings <->
       Py.gtb s 10000 = true /\
       membership inv <> "gold" /\ membership inv <> "platinum") /\
    (In "Unknown coupon" warnings -> In "Consider membership upgrade" warnings ->
       warnings = ["Unknown coupon"; "Consider membership upgrade"]).
Proof.
  rewrite compute_total_valid.
  eexists _, _. split; [reflexivity|].
  pose proof (MEMBERSHIP_DISCOUNT_member (membership inv)) as Hm.
  destruct (Py.gtb s 10000); simpl;
    [destruct (bool_decide_reflect (is_Some (MEMBERSHIP_DISCOUNT !! membership inv)))
       as [Hin|Hin]|];
    simpl; destruct (discount_warnings inv s) as [-> | ->]; simpl;
    (split; [split|]); intros; intuition (try discriminate; try congruence).
Qed.

(** C10: the tables are looked up with the string as it is.  For every
    valid invoice: a country that is a key of the shipping table up to
    letter case, and not that key, gets the DEFAULT shipping rule (25 if
    subtotal < 200 else 0); likewise it gets the DEFAULT tax rate 0.05; a
    membership that is "gold" or "platinum" up to letter case, and not
    that key, is not in the membership table: the discount has the flat
    bonus of 20 when the subtotal is above 3000 and no percentage (plus the
    coupon percentage of a known coupon), and the upgrade warning is given
    exactly when the subtotal is above 10000. *)
Theorem lookups_are_case_sensitive :
  (forall k : string,
     is_Some (SHIPPING_RULES !! k) ->
     Spec.differs_only_in_case (country inv) k ->
     _calculate_shipping (country inv) s = Spec.default_shipping s) /\
  (forall k : string,
     is_Some (TAX_RATE !! k) ->
     Spec.differs_only_in_case (country inv) k ->
     forall a : float, _calculate_tax (country inv) a = (a * 0.05)%float) /\
  (forall k : string,
     is_Some (MEMBERSHIP_DISCOUNT !! k) ->
     Spec.differs_only_in_case (membership inv) k ->
     MEMBERSHIP_DISCOUNT !! membership inv = None /\
     fst (_calculate_discount inv s) =
       (let flat := if Py.gtb s 3000 then (0 + 20)%float else 0%float in
        match Spec.coupon_rate inv with
        | Some c => (flat + s * c)%float
        | None => flat
        end) /\
     exists (total : float) (warnings : list string),
       compute_total (Some inv) = Ok (total, warnings) /\
       (In "Consider membership upgrade" warnings <-> Py.gtb s 10000 = true)).
Proof.
  split; [|split].
  - intros k Hk Hd.
    destruct (case_variant_of_country_key _ _ (SHIPPING_RULES_keys k Hk) Hd)
      as (? & ? & ? & ?).
    apply shipping_of_unknown_country; assumption.
  - intros k Hk Hd a.
    destruct (case_variant_of_country_key _ _ (TAX_RATE_keys k Hk) Hd)
      as (? & ? & ? & ?).
    rewrite calculate_tax_spec, tax_rate_of_unknown_country by assumption.
    reflexivity.
  - intros k Hk Hd.
    apply MEMBERSHIP_DISCOUNT_member in Hk.
    destruct (case_variant_of_membership_key _ _ Hk Hd) as [Hg Hp].
    pose proof (MEMBERSHIP_DISCOUNT_none _ Hg Hp) as Hm.
    split; [exact Hm|]. split; [apply (calculate_discount_spec inv s None Hm)|].
    rewrite compute_total_valid, Hm.
    eexists _, _. split; [reflexivity|].
    destruct (Py.gtb s 10000); simpl;
      destruct (discount_warnings inv s) as [-> | ->]; simpl;
      split; intros; intuition (try discriminate; try congruence).
Qed.

End ValidInvoice.

(** X18: every invoice that passes validation and whose quantities are
    below 2^53 gets a total and a list of warnings: [compute_total] raises
    nothing. *)
Lemma compute_total_returns (inv : Invoice) :
  _validate (Some inv) = Ok tt ->
  Forall (fun i => (Z.abs (qty i) < 2 ^ 53)%Z) (items inv) ->
  exists (total : float) (warnings : list string),
    compute_total (Some inv) = Ok (total, warnings).
Proof.
  intros Hv Hq.
  destruct (calculate_subtotal_returns _ Hq) as (s & ff & Hs).
  rewrite (compute_total_valid inv s ff Hv Hs). eexists _, _. reflexivity.
Qed.

(** *** The theorems on concrete invoices *)

Lemma tax_on_unclamped_base_witness :
  _validate (Some (example_invoice "INV-1" "CUST-1")) = Ok tt /\
  _calculate_subtotal (items (example_invoice "INV-1" "CUST-1")) = Ok (200%float, 10%float) /\
  let d := fst (_calculate_discount (example_invoice "INV-1" "CUST-1") 200) in
  let tax := ((200 - d) * Spec.tax_rate (country (example_invoice "INV-1" "CUST-1")))%float in
  _calculate_tax (country (example_invoice "INV-1" "CUST-1")) (200 - d) = tax /\
  (exists warnings : list string,
     compute_total (Some (example_invoice "INV-1" "CUST-1")) =
       Ok (let total :=
             (200 + _calculate_shipping (country (example_invoice "INV-1" "CUST-1")) 200
              + 10 + tax - d)%float in
           if (total <? 0)%float then 0%float else total,
           warnings)) /\
  (forall (c : string) (s' d' : float),
     Py.gtb d' s' = true ->
     (s' - d' <? 0)%float = true /\
     _calculate_tax c (s' - d') = ((s' - d') * Spec.tax_rate c)%float /\
     ((_calculate_tax c (s' - d') <? 0)%float = true \/
      _calculate_tax c (s' - d') = (-0)%float)).
Proof.
  split; [reflexivity|]. split; [reflexivity|].
  apply (tax_on_unclamped_base (example_invoice "INV-1" "CUST-1") 200 10); reflexivity.
Defined.

Lemma total_not_negative_witness :
  _validate (Some (example_invoice "INV-1" "CUST-1")) = Ok tt /\
  _calculate_subtotal (items (example_invoice "INV-1" "CUST-1")) = Ok (200%float, 10%float) /\
  exists (total : float) (warnings : list string),
    compute_total (Some (example_invoice "INV-1" "CUST-1")) = Ok (total, warnings) /\
    (total <? 0)%float = false /\
    ((0 <=? total)%float = true \/ is_nan total = true) /\
    (let d := fst (_calculate_discount (example_invoice "INV-1" "CUST-1") 200) in
     (200 + _calculate_shipping (country (example_invoice "INV-1" "CUST-1")) 200 + 10
      + _calculate_tax (country (example_invoice "INV-1" "CUST-1")) (200 - d) - d <? 0)%float = true ->
     total = 0%float).
Proof.
  split; [reflexivity|]. split; [reflexivity|].
  apply (total_not_negative (example_invoice "INV-1" "CUST-1") 200 10); reflexivity.
Defined.

(** C2 as written promises a total greater than or equal to 0 for every
    invoice that passes validation.  [overflow_invoice] passes validation
    (price 1e308, quantity 10, membership "gold"): its subtotal overflows
    to infinity, so does its discount, the taxable amount infinity -
    infinity is not a number, and neither is the total returned, which is
    not greater than or equal to 0. *)
Lemma total_can_be_nan :
  _validate (Some overflow_invoice) = Ok tt /\
  _calculate_subtotal (items overflow_invoice) = Ok (infinity, 0%float) /\
  _calculate_discount overflow_invoice infinity = (infinity, []) /\
  compute_total (Some overflow_invoice) = Ok (nan, []) /\
  (0 <=? nan)%float = false.
Proof. repeat split; vm_compute; reflexivity. Qed.

(** The same happens with a price that is not a number, which the test
    [unit_price < 0] of the validation lets through. *)
Example nan_price_is_valid :
  _validate (Some (single_line "TH" "" None nan)) = Ok tt /\
  compute_total (Some (single_line "TH" "" None nan)) = Ok (nan, []).
Proof. split; vm_compute; reflexivity. Qed.

Lemma membership_upgrade_warning_witness :
  _validate (Some (single_line "TH" "" (Some "XYZ") 10001)) = Ok tt /\
  _calculate_subtotal (items (single_line "TH" "" (Some "XYZ") 10001)) = Ok (10001%float, 0%float) /\
  exists (total : float) (warnings : list string),
    compute_total (Some (single_line "TH" "" (Some "XYZ") 10001)) = Ok (total, warnings) /\
    (In "Consider membership upgrade" warnings <->
       Py.gtb 10001 10000 = true /\
       membership (single_line "TH" "" (Some "XYZ") 10001) <> "gold" /\
       membership (single_line "TH" "" (Some "XYZ") 10001) <> "platinum") /\
    (In "Unknown coupon" warnings -> In "Consider membership upgrade" warnings ->
       warnings = ["Unknown coupon"; "Consider membership upgrade"]).
Proof.
  split; [reflexivity|]. split; [reflexivity|].
  apply (membership_upgrade_warning (single_line "TH" "" (Some "XYZ") 10001) 10001 0);
    reflexivity.
Defined.

(** Subtotal 10001, no membership, an unknown coupon: both warnings, the
    coupon warning first; at 10000 exactly, or for a gold member, no
    upgrade warning. *)
Example both_warnings_in_order :
  (exists total : float,
     compute_total (Some (single_line "TH" "" (Some "XYZ") 10001))
       = Ok (total, ["Unknown coupon"; "Consider membership upgrade"])) /\
  (exists total : float,
     compute_total (Some (single_line "TH" "" (Some "XYZ") 10000))
       = Ok (total, ["Unknown coupon"])) /\
  (exists total : float,
     compute_total (Some (single_line "TH" "gold" None 10001)) = Ok (total, [])).
Proof. repeat split; eexists; vm_compute; reflexivity. Qed.

Lemma lookups_are_case_sensitive_witness :
  _validate (Some (single_line "th" "Gold" None 20000)) = Ok tt /\
  _calculate_subtotal (items (single_line "th" "Gold" None 20000))
    = Ok (20000%float, 0%float) /\
  (forall k : string,
     is_Some (SHIPPING_RULES !! k) ->
     Spec.differs_only_in_case (country (single_line "th" "Gold" None 20000)) k ->
     _calculate_shipping (country (single_line "th" "Gold" None 20000)) 20000
       = Spec.default_shipping 20000) /\
  (forall k : string,
     is_Some (TAX_RATE !! k) ->
     Spec.differs_only_in_case (country (single_line "th" "Gold" None 20000)) k ->
     forall a : float,
       _calculate_tax (country (single_line "th" "Gold" None 20000)) a = (a * 0.05)%float) /\
  (forall k : string,
     is_Some (MEMBERSHIP_DISCOUNT !! k) ->
     Spec.differs_only_in_case (membership (single_line "th" "Gold" None 20000)) k ->
     MEMBERSHIP_DISCOUNT !! membership (single_line "th" "Gold" None 20000) = None /\
     fst (_calculate_discount (single_line "th" "Gold" None 20000) 20000) =
       (let flat := if Py.gtb 20000 3000 then (0 + 20)%float else 0%float in
        match Spec.coupon_rate (single_line "th" "Gold" None 20000) with
        | Some c => (flat + 20000 * c)%float
        | None => flat
        end) /\
     exists (total : float) (warnings : list string),
       compute_total (Some (single_line "th" "Gold" None 20000)) = Ok (total, warnings) /\
       (In "Consider membership upgrade" warnings <-> Py.gtb 20000 10000 = true)).
Proof.
  split; [reflexivity|]. split; [reflexivity|].
  apply (lookups_are_case_sensitive (single_line "th" "Gold" None 20000) 20000 0);
    reflexivity.
Defined.

(** * Further properties of the service *)

(** ** More float facts: order and signs *)

Module FloatOrder.
Local Open Scope float_scope.

(** [a <= b < c] gives [a < c]. *)
Lemma SFleb_ltb_trans a b c :
  SFleb a b = true -> SFltb b c = true -> SFltb a c = true.
Proof.
  unfold SFleb, SFltb.
  destruct a as [[]|[]| |[] m1 e1], b as [[]|[]| |[] m2 e2],
           c as [[]|[]| |[] m3 e3]; simpl;
    try discriminate; try reflexivity; cmp_cases.
Qed.

Lemma leb_ltb_trans a b c :
  (a <=? b) = true -> (b <? c) = true -> (a <? c) = true.
Proof.
  rewrite FloatAxioms.leb_spec, !FloatAxioms.ltb_spec. apply SFleb_ltb_trans.
Qed.

Lemma SFltb_trans a b c :
  SFltb a b = true -> SFltb b c = true -> SFltb a c = true.
Proof.
  unfold SFltb.
  destruct a as [[]|[]| |[] m1 e1], b as [[]|[]| |[] m2 e2],
           c as [[]|[]| |[] m3 e3]; simpl;
    try discriminate; try reflexivity; cmp_cases.
Qed.

Lemma ltb_trans a b c :
  (a <? b) = true -> (b <? c) = true -> (a <? c) = true.
Proof. rewrite !FloatAxioms.ltb_spec. apply SFltb_trans. Qed.

Lemma SFnot_negative_sign (x : spec_float) :
  match x with
  | S754_infinity s | S754_finite s _ _ => s = false
  | _ => True
  end <-> SFnot_negative x.
Proof.
  unfold SFnot_negative, SFltb.
  destruct x as [[]|[]| |[] m e]; simpl; split; intros; auto; discriminate.
Qed.

Lemma binary_round_sign (sx : bool) (m : positive) (e : Z) :
  match binary_round prec emax sx m e with
  | S754_zero s | S754_infinity s | S754_finite s _ _ => s = sx
  | S754_nan => False
  end.
Proof.
  unfold binary_round.
  destruct (shl_align m e _) as [mz ez].
  apply FloatFacts.binary_round_aux_sign. lia.
Qed.

Lemma SFadd_not_negative (x y : spec_float) :
  SFnot_negative x -> SFnot_negative y -> SFnot_negative (SF64add x y).
Proof.
  rewrite <- !SFnot_negative_sign.
  destruct x as [sx|sx| |sx mx ex], y as [sy|sy| |sy my ey]; simpl;
    intros Hx Hy; subst; auto;
    try (destruct sx; exact I); try (destruct sx, sy; exact I).
  unfold SF64add, SFadd, cond_Zopp.
  set (z := (_ + _)%Z).
  assert (Hz : (0 < z)%Z) by (unfold z; lia).
  destruct z as [|p|p]; try lia.
  unfold binary_normalize.
  pose proof (binary_round_sign false p (Z.min ex ey)) as Hr.
  destruct (binary_round prec emax false p (Z.min ex ey)); auto; contradiction.
Qed.

Lemma SFmul_not_negative (x y : spec_float) :
  SFnot_negative x -> SFnot_negative y -> SFnot_negative (SF64mul x y).
Proof.
  rewrite <- !SFnot_negative_sign.
  destruct x as [sx|sx| |sx mx ex], y as [sy|sy| |sy my ey]; simpl;
    intros Hx Hy; subst; auto.
  unfold SF64mul, SFmul.
  pose proof (FloatFacts.binary_round_aux_sign (xorb false false)
                (Zpos (mx * my)) (ex + ey) loc_Exact ltac:(lia)) as Hr.
  destruct (binary_round_aux _ _ _ _ _ _); auto; contradiction.
Qed.

(** Sums and products of floats that are not below zero are not below
    zero. *)
Lemma add_not_negative (x y : float) :
  (x <? 0) = false -> (y <? 0) = false -> (x + y <? 0) = false.
Proof.
  rewrite !FloatAxioms.ltb_spec, FloatAxioms.add_spec. apply SFadd_not_negative.
Qed.

Lemma mul_not_negative (x y : float) :
  (x <? 0) = false -> (y <? 0) = false -> (x * y <? 0) = false.
Proof.
  rewrite !FloatAxioms.ltb_spec, FloatAxioms.mul_spec. apply SFmul_not_negative.
Qed.

(** The float of a [spec_float] of positive sign is not below zero. *)
Lemma SF2Prim_not_negative (x : spec_float) :
  match x with
  | S754_zero s | S754_infinity s | S754_finite s _ _ => s = false
  | S754_nan => True
  end ->
  (SF2Prim x <? 0) = false.
Proof.
  destruct x as [s|s| |s m e]; intros Hs; subst; try reflexivity.
  unfold SF2Prim, Z.ldexp.
  rewrite FloatAxioms.ltb_spec, FloatAxioms.ldshiftexp_spec, FloatAxioms.of_uint63_spec.
  apply SFnot_negative_sign.
  set (n := Uint63.to_Z _).
  assert (Hn : (0 <= n)%Z) by (apply Uint63.to_Z_bounded).
  set (k := (Uint63.to_Z _ - FloatOps.shift)%Z).
  unfold binary_normalize.
  destruct n as [|p|p]; try lia; [exact I|].
  pose proof (binary_round_sign false p 0) as Hr.
  destruct (binary_round prec emax false p 0) as [s|s| |s m' e'];
    try contradiction; subst; simpl; auto.
  pose proof (binary_round_sign false m' (e' + k)) as Hr.
  destruct (binary_round prec emax false m' (e' + k)); auto; contradiction.
Qed.

End FloatOrder.

(** ** What makes an invoice valid *)

Lemma item_defects_nil (i : LineItem) :
  Spec.item_defects i = [] <-> valid_item i.
Proof.
  unfold Spec.item_defects, valid_item.
  destruct (decide (sku i = "")), (decide (qty i <= 0)%Z),
    (unit_price i <? 0)%float,
    (decide (In (category i) ["book"; "food"; "electronics"; "other"]));
    simpl; (split; [try discriminate; intros _ | intros (? & ? & ? & ?)]);
    try reflexivity; try contradiction; try lia; try discriminate;
    repeat split; auto; lia.
Qed.

Lemma concat_item_defects_nil (its : list LineItem) :
  concat (map Spec.item_defects its) = [] <-> Forall valid_item its.
Proof.
  induction its as [|i its IH]; simpl.
  - split; [constructor | reflexivity].
  - split.
    + intros H. apply app_eq_nil in H as [Hi Hits].
      constructor; [apply item_defects_nil, Hi | apply IH, Hits].
    + intros H. inversion H as [|? ? Hi Hits]; subst.
      apply item_defects_nil in Hi. apply IH in Hits. rewrite Hi, Hits. reflexivity.
Qed.

Lemma invoice_defects_nil (inv : Invoice) :
  Spec.invoice_defects inv = [] <->
  invoice_id inv <> "" /\ customer_id inv <> "" /\ items inv <> [] /\
  Forall valid_item (items inv).
Proof.
  unfold Spec.invoice_defects. rewrite <- concat_item_defects_nil.
  destruct (decide (invoice_id inv = "")), (decide (customer_id inv = "")),
    (decide (items inv = [])); simpl;
    split; try discriminate; intros; intuition (try discriminate; try congruence).
Qed.

(** X1: [_validate] accepts an invoice exactly when both identifiers are
    non-empty, there is at least one item, and every item has a non-empty
    sku, a quantity above 0, a price that is not below 0 and a category
    among book, food, electronics and other.  Country, membership and
    coupon play no part. *)
Theorem valid_invoice_iff (inv : Invoice) :
  _validate (Some inv) = Ok tt <->
  invoice_id inv <> "" /\ customer_id inv <> "" /\ items inv <> [] /\
  Forall valid_item (items inv).
Proof.
  rewrite <- invoice_defects_nil, validate_spec.
  destruct (Spec.invoice_defects inv); split; congruence.
Qed.

(** ** The exceptions of [compute_total] *)

Lemma float_of_int_cases (n : Z) :
  (exists y, Py.float_of_int n = Ok y) \/ Py.float_of_int n = Raise OverflowError.
Proof.
  unfold Py.float_of_int. destruct (is_infinity _); [right | left; eexists]; reflexivity.
Qed.

Lemma mul_int_cases (x : float) (n : Z) :
  (exists y q, Py.float_of_int n = Ok q /\ Py.mul_int x n = Ok y) \/
  (Py.float_of_int n = Raise OverflowError /\ Py.mul_int x n = Raise OverflowError).
Proof.
  unfold Py.mul_int.
  destruct (float_of_int_cases n) as [[q Hq] | Hq]; rewrite Hq; simpl;
    [left; eauto | right; auto].
Qed.

(** A sum of products by the quantities returns when every quantity has a
    float, and raises [OverflowError] when one has none. *)
Lemma sum_from_outcome (x : LineItem -> float) (l : list LineItem) (acc : float) :
  match Py.sum_from (fun i => Py.mul_int (x i) (qty i)) l acc with
  | Ok _ => Forall (fun i => exists q, Py.float_of_int (qty i) = Ok q) l
  | Raise e =>
      e = OverflowError /\
      Exists (fun i => Py.float_of_int (qty i) = Raise OverflowError) l
  end.
Proof.
  revert acc. induction l as [|i l IH]; intros acc; simpl; [constructor|].
  destruct (mul_int_cases (x i) (qty i)) as [(y & q & Hq & ->) | [Hq ->]]; simpl.
  - specialize (IH (acc + y)%float).
    destruct (Py.sum_from _ l _).
    + constructor; eauto.
    + destruct IH as [-> IH]. split; [reflexivity | apply Exists_cons_tl, IH].
  - split; [reflexivity | apply Exists_cons_hd, Hq].
Qed.

Lemma calculate_subtotal_outcome (its : list LineItem) :
  match _calculate_subtotal its with
  | Ok _ => Forall (fun i => exists q, Py.float_of_int (qty i) = Ok q) its
  | Raise e =>
      e = OverflowError /\
      Exists (fun i => Py.float_of_int (qty i) = Raise OverflowError) its
  end.
Proof.
  unfold _calculate_subtotal, Py.sum.
  pose proof (sum_from_outcome unit_price its 0%float) as Hs.
  destruct (Py.sum_from _ its _) as [s|e]; simpl; [|exact Hs].
  pose proof (sum_from_outcome (fun _ => 5.0%float)
                (filter (fun i => fragile i = true) its) 0%float) as Hf.
  destruct (Py.sum_from _ (filter _ its) _) as [ff|e]; simpl; [exact Hs|].
  destruct Hf as [-> Hf]. split; [reflexivity|].
  apply Exists_exists in Hf as (i & Hi & Hq).
  apply list_elem_of_filter in Hi as [_ Hi].
  apply Exists_exists. eauto.
Qed.

(** X2: the three outcomes of [compute_total] on an invoice.  It raises
    [ValueError] exactly when the invoice has a defect, whatever its
    quantities; it raises [OverflowError] exactly when the invoice is valid
    and some quantity is too large to convert to float; otherwise it
    returns, and then the invoice is valid and every quantity converts. *)
Theorem compute_total_outcome (inv : Invoice) :
  match compute_total (Some inv) with
  | Ok _ =>
      _validate (Some inv) = Ok tt /\
      Forall (fun i => exists q, Py.float_of_int (qty i) = Ok q) (items inv)
  | Raise (ValueError msg) =>
      Spec.invoice_defects inv <> [] /\
      msg = Py.join "; " (Spec.invoice_defects inv)
  | Raise OverflowError =>
      _validate (Some inv) = Ok tt /\
      Exists (fun i => Py.float_of_int (qty i) = Raise OverflowError) (items inv)
  end.
Proof.
  pose proof (validate_spec inv) as Hv.
  unfold compute_total.
  destruct (Spec.invoice_defects inv) as [|d ds] eqn:Hd; rewrite Hv; simpl.
  - pose proof (calculate_subtotal_outcome (items inv)) as Hs.
    destruct (_calculate_subtotal (items inv)) as [[s ff]|e]; simpl.
    + destruct (_calculate_discount inv s). simpl. auto.
    + destruct Hs as [-> Hs]. auto.
  - split; [discriminate | reflexivity].
Qed.

(** A valid line with a quantity of 2^1024 raises [OverflowError]; with an
    empty invoice id on top, the [ValueError] of the validation comes
    first. *)
Example overflow_after_validation :
  compute_total (Some huge_quantity_invoice) = Raise OverflowError /\
  compute_total (Some (mkInvoice "" "CUST-5" "TH" "" None (items huge_quantity_invoice)))
    = Raise (ValueError "Missing invoice_id").
Proof. split; vm_compute; reflexivity. Qed.

(** ** Adding a line *)




(** ** Amounts that are never negative *)

Lemma float_of_int_not_negative (n : Z) (y : float) :
  (0 <= n)%Z -> Py.float_of_int n = Ok y -> (y <? 0)%float = false.
Proof.
  unfold Py.float_of_int. intros Hn.
  destruct (is_infinity _); [discriminate|]. intros [= <-].
  apply FloatOrder.SF2Prim_not_negative. unfold binary_normalize.
  destruct n as [|p|p].
  - reflexivity.
  - pose proof (FloatOrder.binary_round_sign false p 0) as Hr.
    destruct (binary_round prec emax false p 0); auto.
  - lia.
Qed.

Lemma mul_int_not_negative (x : float) (n : Z) (y : float) :
  (x <? 0)%float = false -> (0 <= n)%Z -> Py.mul_int x n = Ok y ->
  (y <? 0)%float = false.
Proof.
  intros Hx Hn. unfold Py.mul_int.
  destruct (Py.float_of_int n) as [q|] eqn:Hq; simpl; [|discriminate].
  intros [= <-]. apply FloatOrder.mul_not_negative; [exact Hx|].
  exact (float_of_int_not_negative n q Hn Hq).
Qed.

Lemma sum_from_not_negative (x : LineItem -> float) (l : list LineItem)
    (acc r : float) :
  Forall (fun i => (x i <? 0)%float = false /\ (0 <= qty i)%Z) l ->
  (acc <? 0)%float = false ->
  Py.sum_from (fun i => Py.mul_int (x i) (qty i)) l acc = Ok r ->
  (r <? 0)%float = false.
Proof.
  intros Hl. revert acc. induction Hl as [|i l [Hx Hn] _ IH]; intros acc Hacc; simpl.
  - intros [= <-]. exact Hacc.
  - destruct (Py.mul_int (x i) (qty i)) as [y|] eqn:Hy; simpl; [|discriminate].
    apply IH. apply FloatOrder.add_not_negative; [exact Hacc|].
    exact (mul_int_not_negative _ _ _ Hx Hn Hy).
Qed.

(** X4: on items that pass validation (prices not below 0, quantities
    above 0), the subtotal and the fragile fee that [_calculate_subtotal]
    returns are never negative: each is at least 0, or not a number. *)
Theorem subtotal_not_negative (its : list LineItem) (s ff : float) :
  Forall valid_item its ->
  _calculate_subtotal its = Ok (s, ff) ->
  ((0 <=? s)%float = true \/ is_nan s = true) /\
  ((0 <=? ff)%float = true \/ is_nan ff = true).
Proof.
  intros Hv. unfold _calculate_subtotal, Py.sum.
  destruct (Py.sum_from _ its _) as [s0|] eqn:Hs; simpl; [|discriminate].
  destruct (Py.sum_from _ (filter _ its) _) as [ff0|] eqn:Hf; simpl; [|discriminate].
  intros [= <- <-]. split; apply FloatFacts.not_ltb_zero.
  - apply (sum_from_not_negative unit_price its 0 s0); [|reflexivity|exact Hs].
    eapply Forall_impl; [exact Hv|]. intros i (_ & Hq & Hp & _). split; [exact Hp|lia].
  - apply (sum_from_not_negative (fun _ => 5.0%float)
             (filter (fun i => fragile i = true) its) 0 ff0);
      [|reflexivity|exact Hf].
    apply Forall_fragile.
    eapply Forall_impl; [exact Hv|]. intros i (_ & Hq & _ & _). split; [reflexivity|lia].
Qed.

Lemma subtotal_not_negative_witness :
  Forall valid_item [item_A] /\
  _calculate_subtotal [item_A] = Ok (200%float, 10%float) /\
  ((0 <=? 200)%float = true \/ is_nan 200 = true) /\
  ((0 <=? 10)%float = true \/ is_nan 10 = true).
Proof.
  assert (Hv : Forall valid_item [item_A]).
  { repeat constructor; simpl; auto; discriminate. }
  split; [exact Hv|]. split; [reflexivity|].
  apply (subtotal_not_negative [item_A] 200 10 Hv). reflexivity.
Defined.

(** X5: the discount of a subtotal that is not below 0 is not below 0,
    whatever the membership and the coupon; and the tax of a taxable
    amount that is not below 0 is not below 0, in every country. *)
Theorem discount_and_tax_not_negative (inv : Invoice) (s : float) :
  (s <? 0)%float = false ->
  (fst (_calculate_discount inv s) <? 0)%float = false /\
  forall c : string, (_calculate_tax c s <? 0)%float = false.
Proof.
  intros Hs. split.
  - rewrite (calculate_discount_spec inv s _ eq_refl). cbv zeta.
    assert (Hc : (match MEMBERSHIP_DISCOUNT !! membership inv with
                  | Some rate => 0 + s * rate
                  | None => if Py.gtb s 3000 then 0 + 20 else 0
                  end <? 0)%float = false).
    { rewrite MEMBERSHIP_DISCOUNT_lookup.
      repeat case_decide;
        try (apply FloatOrder.add_not_negative; [reflexivity|];
             apply FloatOrder.mul_not_negative; [exact Hs | reflexivity]).
      destruct (Py.gtb s 3000); reflexivity. }
    unfold Spec.coupon_rate.
    destruct (coupon inv) as [c|]; [|exact Hc].
    destruct (decide (c = "")); [exact Hc|].
    destruct (COUPON_RATE !! Py.strip c) as [r|] eqn:Hr; [|exact Hc].
    apply FloatOrder.add_not_negative; [exact Hc|].
    apply FloatOrder.mul_not_negative; [exact Hs|].
    unfold COUPON_RATE in Hr.
    destruct (decide (Py.strip c = "WELCOME10")) as [E|];
      [rewrite E in Hr; injection Hr as <-; reflexivity|].
    destruct (decide (Py.strip c = "VIP20")) as [E|];
      [rewrite E in Hr; injection Hr as <-; reflexivity|].
    destruct (decide (Py.strip c = "STUDENT5")) as [E|];
      [rewrite E in Hr; injection Hr as <-; reflexivity|].
    simplify_map_eq.
  - intros c. rewrite calculate_tax_spec.
    apply FloatOrder.mul_not_negative; [exact Hs|].
    unfold Spec.tax_rate. repeat case_decide; reflexivity.
Qed.

Lemma discount_and_tax_not_negative_witness :
  (4000 <? 0)%float = false /\
  (fst (_calculate_discount (single_line "US" "gold" (Some "VIP20") 4000) 4000) <? 0)%float
    = false /\
  forall c : string, (_calculate_tax c 4000 <? 0)%float = false.
Proof.
  split; [reflexivity|].
  apply (discount_and_tax_not_negative (single_line "US" "gold" (Some "VIP20") 4000) 4000).
  reflexivity.
Defined.

(** ** Shipping in every country *)

(** The rule that [_calculate_shipping] picks. *)
Lemma shipping_cases (c : string) (S : float) :
  _calculate_shipping c S =
    if decide (c = "TH") then (if (S <? 500)%float then 60%float else 0%float)
    else if decide (c = "JP") then (if (S <? 4000)%float then 600%float else 0%float)
    else if decide (c = "US")
         then (if (S <? 100)%float then 15%float
               else if (S <? 300)%float then 8%float else 0%float)
    else (if (S <? 200)%float then 25%float else 0%float).
Proof.
  destruct (decide (c = "TH")) as [->|]; [reflexivity|].
  destruct (decide (c = "JP")) as [->|]; [reflexivity|].
  destruct (decide (c = "US")) as [->|]; [reflexivity|].
  destruct (decide (c = "DEFAULT")) as [->|]; [reflexivity|].
  apply shipping_of_unknown_country; assumption.
Qed.

(** X6: in every country the shipping fee does not grow with the
    subtotal: a subtotal at least as large never pays more shipping. *)
Theorem shipping_never_grows (c : string) (S1 S2 : float) :
  (S1 <=? S2)%float = true ->
  (_calculate_shipping c S2 <=? _calculate_shipping c S1)%float = true.
Proof.
  intros H. rewrite !shipping_cases.
  repeat case_decide;
    repeat match goal with
    | |- context [(S2 <? ?t)%float] =>
        let E := fresh "E" in
        destruct (S2 <? t)%float eqn:E;
        [rewrite (FloatOrder.leb_ltb_trans S1 S2 t H E)|]
    end;
    repeat match goal with
    | |- context [(S1 <? ?t)%float] => destruct (S1 <? t)%float
    end;
    reflexivity.
Qed.

Lemma shipping_never_grows_witness :
  (99.99 <=? 100)%float = true /\
  (_calculate_shipping "US" 100 <=? _calculate_shipping "US" 99.99)%float = true.
Proof.
  split; [reflexivity|]. apply (shipping_never_grows "US" 99.99 100). reflexivity.
Defined.

(** X7: from a subtotal of 4000 on, shipping is free in every country,
    known or not. *)
Theorem shipping_free_from_4000 (c : string) (S : float) :
  (4000 <=? S)%float = true -> _calculate_shipping c S = 0%float.
Proof.
  intros H. rewrite shipping_cases.
  rewrite (FloatFacts.leb_not_ltb _ _ H).
  rewrite (FloatFacts.ltb_leb_trans 500 4000 S), (FloatFacts.ltb_leb_trans 100 4000 S),
    (FloatFacts.ltb_leb_trans 300 4000 S), (FloatFacts.ltb_leb_trans 200 4000 S)
    by (reflexivity || exact H).
  repeat case_decide; reflexivity.
Qed.

Lemma shipping_free_from_4000_witness :
  (4000 <=? 4000)%float = true /\ _calculate_shipping "JP" 4000 = 0%float.
Proof.
  split; [reflexivity|]. apply (shipping_free_from_4000 "JP" 4000). reflexivity.
Defined.

(** X8: with country "TH" the fee is 60 when S < 500 and 0 when S >= 500;
    with country "JP" it is 600 when S < 4000 and 0 when S >= 4000; at the
    boundaries, 499.99 gives 60 and 500 gives 0, 3999.99 gives 600 and 4000
    gives 0. *)
Theorem th_jp_shipping_steps (S : float) :
  ((S <? 500)%float = true -> _calculate_shipping "TH" S = 60%float) /\
  ((500 <=? S)%float = true -> _calculate_shipping "TH" S = 0%float) /\
  ((S <? 4000)%float = true -> _calculate_shipping "JP" S = 600%float) /\
  ((4000 <=? S)%float = true -> _calculate_shipping "JP" S = 0%float) /\
  _calculate_shipping "TH" 499.99 = 60%float /\
  _calculate_shipping "TH" 500 = 0%float /\
  _calculate_shipping "JP" 3999.99 = 600%float /\
  _calculate_shipping "JP" 4000 = 0%float.
Proof.
  rewrite !shipping_cases. simpl decide. cbv iota.
  split; [intros ->; reflexivity|].
  split; [intros H; rewrite (FloatFacts.leb_not_ltb _ _ H); reflexivity|].
  split; [intros ->; reflexivity|].
  split; [intros H; rewrite (FloatFacts.leb_not_ltb _ _ H); reflexivity|].
  repeat split; vm_compute; reflexivity.
Qed.

(** X9: a country that is none of "TH", "JP" and "US" (the empty string
    and "DEFAULT" itself included) falls back on the DEFAULT entries: the
    shipping fee is 25 when S < 200 and 0 when S >= 200, and the tax is 5%
    of the taxable amount. *)
Theorem unknown_country_defaults (c : string) (S a : float) :
  c <> "TH" -> c <> "JP" -> c <> "US" ->
  ((S <? 200)%float = true -> _calculate_shipping c S = 25%float) /\
  ((200 <=? S)%float = true -> _calculate_shipping c S = 0%float) /\
  _calculate_shipping c 199.99 = 25%float /\
  _calculate_shipping c 200 = 0%float /\
  _calculate_tax c a = (a * 0.05)%float.
Proof.
  intros H1 H2 H3. rewrite !shipping_cases.
  destruct (decide (c = "TH")); [contradiction|].
  destruct (decide (c = "JP")); [contradiction|].
  destruct (decide (c = "US")); [contradiction|].
  split; [intros ->; reflexivity|].
  split; [intros H; rewrite (FloatFacts.leb_not_ltb _ _ H); reflexivity|].
  split; [reflexivity|]. split; [reflexivity|].
  rewrite calculate_tax_spec, tax_rate_of_unknown_country by assumption. reflexivity.
Qed.

Lemma unknown_country_defaults_witness :
  "" <> "TH" /\ "" <> "JP" /\ "" <> "US" /\
  ((150 <? 200)%float = true -> _calculate_shipping "" 150 = 25%float) /\
  ((200 <=? 150)%float = true -> _calculate_shipping "" 150 = 0%float) /\
  _calculate_shipping "" 199.99 = 25%float /\
  _calculate_shipping "" 200 = 0%float /\
  _calculate_tax "" 100 = (100 * 0.05)%float.
Proof.
  split; [discriminate|]. split; [discriminate|]. split; [discriminate|].
  apply (unknown_country_defaults "" 150 100); discriminate.
Defined.

(** ** Coupons: the three codes, and the blanks around them *)

Lemma COUPON_RATE_lookup (code : string) :
  COUPON_RATE !! code =
    if decide (code = "WELCOME10") then Some 0.10%float
    else if decide (code = "VIP20") then Some 0.20%float
    else if decide (code = "STUDENT5") then Some 0.05%float
    else None.
Proof.
  unfold COUPON_RATE.
  destruct (decide (code = "WELCOME10")) as [->|]; [reflexivity|].
  destruct (decide (code = "VIP20")) as [->|]; [reflexivity|].
  destruct (decide (code = "STUDENT5")) as [->|]; [reflexivity|].
  simplify_map_eq. reflexivity.
Qed.

(** The discount step with a coupon, from the discount without it. *)
Lemma calculate_discount_with_coupon (inv : Invoice) (s : float) (c : string) :
  coupon inv = Some c ->
  _calculate_discount inv s =
    let base := fst (_calculate_discount (with_coupon inv None) s) in
    if Py.truthy c then
      match COUPON_RATE !! Py.strip c with
      | Some rate => ((base + s * rate)%float, [])
      | None => (base, ["Unknown coupon"])
      end
    else (base, []).
Proof.
  intros Hc. unfold _calculate_discount, with_coupon. rewrite Hc. simpl.
  destruct (Py.truthy c); [|reflexivity].
  destruct (COUPON_RATE !! Py.strip c); reflexivity.
Qed.

(** X10: a coupon that trims to WELCOME10, VIP20 or STUDENT5 adds 10%, 20%
    or 5% of the subtotal to the discount the invoice has without coupon,
    and gives no warning; any other non-empty coupon adds nothing and
    gives the warning "Unknown coupon". *)
Theorem coupon_outcomes (inv : Invoice) (s : float) (c : string) :
  coupon inv = Some c ->
  let base := fst (_calculate_discount (with_coupon inv None) s) in
  (Py.strip c = "WELCOME10" -> _calculate_discount inv s = ((base + s * 0.10)%float, [])) /\
  (Py.strip c = "VIP20" -> _calculate_discount inv s = ((base + s * 0.20)%float, [])) /\
  (Py.strip c = "STUDENT5" -> _calculate_discount inv s = ((base + s * 0.05)%float, [])) /\
  (c <> "" -> Py.strip c <> "WELCOME10" -> Py.strip c <> "VIP20" ->
   Py.strip c <> "STUDENT5" ->
   _calculate_discount inv s = (base, ["Unknown coupon"])).
Proof.
  intros Hc base. rewrite (calculate_discount_with_coupon inv s c Hc). fold base.
  cbv zeta. rewrite COUPON_RATE_lookup.
  repeat split.
  - intros Hs. rewrite (strip_nonempty c) by (rewrite Hs; discriminate).
    rewrite Hs. reflexivity.
  - intros Hs. rewrite (strip_nonempty c) by (rewrite Hs; discriminate).
    rewrite Hs. reflexivity.
  - intros Hs. rewrite (strip_nonempty c) by (rewrite Hs; discriminate).
    rewrite Hs. reflexivity.
  - intros Hne H1 H2 H3. destruct c as [|x c]; [congruence|]. simpl Py.truthy.
    cbv iota. repeat case_decide; try contradiction. reflexivity.
Qed.

Lemma coupon_outcomes_witness :
  coupon (single_line "JP" "gold" (Some " STUDENT5") 1000) = Some " STUDENT5" /\
  let base :=
    fst (_calculate_discount
           (with_coupon (single_line "JP" "gold" (Some " STUDENT5") 1000) None) 1000) in
  (Py.strip " STUDENT5" = "WELCOME10" ->
   _calculate_discount (single_line "JP" "gold" (Some " STUDENT5") 1000) 1000
     = ((base + 1000 * 0.10)%float, [])) /\
  (Py.strip " STUDENT5" = "VIP20" ->
   _calculate_discount (single_line "JP" "gold" (Some " STUDENT5") 1000) 1000
     = ((base + 1000 * 0.20)%float, [])) /\
  (Py.strip " STUDENT5" = "STUDENT5" ->
   _calculate_discount (single_line "JP" "gold" (Some " STUDENT5") 1000) 1000
     = ((base + 1000 * 0.05)%float, [])) /\
  (" STUDENT5" <> "" -> Py.strip " STUDENT5" <> "WELCOME10" ->
   Py.strip " STUDENT5" <> "VIP20" -> Py.strip " STUDENT5" <> "STUDENT5" ->
   _calculate_discount (single_line "JP" "gold" (Some " STUDENT5") 1000) 1000
     = (base, ["Unknown coupon"])).
Proof.
  split; [reflexivity|].
  apply (coupon_outcomes (single_line "JP" "gold" (Some " STUDENT5") 1000) 1000 " STUDENT5").
  reflexivity.
Defined.

(** The three codes on a subtotal of 1000, and a code that is none. *)
Example coupon_codes :
  _calculate_discount (single_line "TH" "" (Some "WELCOME10") 1000) 1000 = (100%float, []) /\
  _calculate_discount (single_line "TH" "" (Some "VIP20") 1000) 1000 = (200%float, []) /\
  _calculate_discount (single_line "TH" "" (Some "STUDENT5") 1000) 1000 = (50%float, []) /\
  _calculate_discount (single_line "TH" "" (Some "XYZ") 1000) 1000
    = (0%float, ["Unknown coupon"]).
Proof. repeat split; vm_compute; reflexivity. Qed.

(** *** [strip] *)

Lemma rev_app_app (a b acc : string) :
  String.rev_app (a +:+ b) acc = String.rev_app b (String.rev_app a acc).
Proof.
  revert acc. induction a as [|x a IH]; intros acc; [reflexivity|].
  rewrite string_app_cons. simpl. apply IH.
Qed.

Lemma rev_app_spec (a acc : string) :
  String.rev_app a acc = String.rev a +:+ acc.
Proof.
  unfold String.rev. revert acc. induction a as [|x a IH]; intros acc; [reflexivity|].
  simpl. rewrite IH, (IH (String x "")), string_app_assoc. reflexivity.
Qed.

Lemma rev_app_distr (a b : string) :
  String.rev (a +:+ b) = String.rev b +:+ String.rev a.
Proof. unfold String.rev at 1. rewrite rev_app_app, rev_app_spec. reflexivity. Qed.

Lemma blank_app (a b : string) : blank (a +:+ b) = blank a && blank b.
Proof.
  induction a as [|x a IH]; [reflexivity|].
  rewrite string_app_cons. simpl. rewrite IH, andb_assoc. reflexivity.
Qed.

Lemma blank_rev (a : string) : blank (String.rev a) = blank a.
Proof.
  induction a as [|x a IH]; [reflexivity|].
  change (String x a) with (String x "" +:+ a) at 1.
  rewrite rev_app_distr, blank_app, IH. simpl.
  rewrite andb_true_r, andb_comm. reflexivity.
Qed.

Lemma lstrip_blank_app (w s : string) : blank w = true -> Py.lstrip (w +:+ s) = Py.lstrip s.
Proof.
  induction w as [|x w IH]; [reflexivity|]. simpl blank.
  intros H. apply andb_prop in H as [Hx Hw].
  rewrite string_app_cons. simpl. rewrite Hx. apply IH, Hw.
Qed.

Lemma lstrip_blank (w : string) : blank w = true -> Py.lstrip w = "".
Proof.
  intros H. rewrite <- (string_app_nil_r w). rewrite lstrip_blank_app by exact H.
  reflexivity.
Qed.

Lemma rstrip_app_blank (s w : string) : blank w = true -> Py.rstrip (s +:+ w) = Py.rstrip s.
Proof.
  intros H. unfold Py.rstrip.
  rewrite rev_app_distr, lstrip_blank_app by (rewrite blank_rev; exact H).
  reflexivity.
Qed.

Lemma lstrip_app (s w : string) :
  Py.lstrip s <> "" -> Py.lstrip (s +:+ w) = Py.lstrip s +:+ w.
Proof.
  induction s as [|x s IH]; [intros H; exfalso; apply H; reflexivity|].
  rewrite string_app_cons. simpl. destruct (Py.isspace x); [exact IH | reflexivity].
Qed.

Lemma lstrip_nil_blank (s : string) : Py.lstrip s = "" -> blank s = true.
Proof.
  induction s as [|x s IH]; [reflexivity|]. simpl.
  destruct (Py.isspace x); [exact IH | discriminate].
Qed.

(** Blanks around a string do not change what [strip] gives. *)
Lemma strip_padded (pre c post : string) :
  blank pre = true -> blank post = true ->
  Py.strip (pre +:+ c +:+ post) = Py.strip c.
Proof.
  intros Hpre Hpost. unfold Py.strip.
  rewrite lstrip_blank_app by exact Hpre.
  destruct (string_dec (Py.lstrip c) "") as [Hc|Hc].
  - rewrite Hc. rewrite lstrip_blank; [reflexivity|].
    rewrite blank_app, (lstrip_nil_blank c Hc), Hpost. reflexivity.
  - rewrite lstrip_app by exact Hc. apply rstrip_app_blank, Hpost.
Qed.

(** X11: blanks before and after a non-empty coupon change nothing: the
    discount and the warnings are those of the coupon without them. *)
Theorem coupon_padding_is_ignored (inv : Invoice) (pre c post : string) (s : float) :
  blank pre = true -> blank post = true -> c <> "" ->
  _calculate_discount (with_coupon inv (Some (pre +:+ c +:+ post))) s
    = _calculate_discount (with_coupon inv (Some c)) s.
Proof.
  intros Hpre Hpost Hc.
  rewrite (calculate_discount_with_coupon
             (with_coupon inv (Some (pre +:+ c +:+ post))) s _ eq_refl).
  rewrite (calculate_discount_with_coupon (with_coupon inv (Some c)) s _ eq_refl).
  rewrite strip_padded by assumption.
  assert (Ht : Py.truthy (pre +:+ c +:+ post) = true).
  { destruct pre; [destruct c; [congruence|reflexivity] | reflexivity]. }
  rewrite Ht. destruct c; [congruence|]. reflexivity.
Qed.

Lemma coupon_padding_is_ignored_witness :
  blank "  " = true /\ blank " " = true /\ "VIP20" <> "" /\
  _calculate_discount
    (with_coupon (single_line "TH" "" None 1000) (Some ("  " +:+ "VIP20" +:+ " "))) 1000
    = _calculate_discount (with_coupon (single_line "TH" "" None 1000) (Some "VIP20")) 1000.
Proof.
  split; [reflexivity|]. split; [reflexivity|]. split; [discriminate|].
  apply (coupon_padding_is_ignored (single_line "TH" "" None 1000) "  " "VIP20" " " 1000);
    [reflexivity | reflexivity | discriminate].
Defined.

(** ** What a returned result tells *)

(** A result comes from a valid invoice whose subtotal was computed. *)
Lemma compute_total_ok_inv (inv : Invoice) (t : float) (w : list string) :
  compute_total (Some inv) = Ok (t, w) ->
  _validate (Some inv) = Ok tt /\
  exists s ff : float, _calculate_subtotal (items inv) = Ok (s, ff).
Proof.
  unfold compute_total.
  destruct (_validate (Some inv)) as [[]|e]; simpl; [|discriminate].
  destruct (_calculate_subtotal (items inv)) as [[s ff]|e]; simpl; [|discriminate].
  intros _. eauto.
Qed.

(** X12: the warnings that [compute_total] returns are one of four lists:
    none, the coupon warning, the upgrade warning, or both with the coupon
    warning first. *)
Theorem warnings_are_one_of_four (inv : Invoice) (t : float) (w : list string) :
  compute_total (Some inv) = Ok (t, w) ->
  w = [] \/ w = ["Unknown coupon"] \/ w = ["Consider membership upgrade"] \/
  w = ["Unknown coupon"; "Consider membership upgrade"].
Proof.
  intros H. destruct (compute_total_ok_inv inv t w H) as (Hv & s & ff & Hs).
  rewrite (compute_total_valid inv s ff Hv Hs) in H. injection H as _ <-.
  destruct (discount_warnings inv s) as [-> | ->];
    destruct (Py.gtb s 10000 && _); simpl; auto.
Qed.

Lemma warnings_are_one_of_four_witness :
  compute_total (Some (single_line "TH" "" (Some "XYZ") 10001))
    = Ok (10679.67%float, ["Unknown coupon"; "Consider membership upgrade"]) /\
  (["Unknown coupon"; "Consider membership upgrade"] = [] \/
   ["Unknown coupon"; "Consider membership upgrade"] = ["Unknown coupon"] \/
   ["Unknown coupon"; "Consider membership upgrade"] = ["Consider membership upgrade"] \/
   ["Unknown coupon"; "Consider membership upgrade"]
     = ["Unknown coupon"; "Consider membership upgrade"]).
Proof.
  assert (H : compute_total (Some (single_line "TH" "" (Some "XYZ") 10001))
              = Ok (10679.67%float, ["Unknown coupon"; "Consider membership upgrade"]))
    by (vm_compute; reflexivity).
  split; [exact H|].
  exact (warnings_are_one_of_four _ _ _ H).
Defined.

(** X13: whenever [compute_total] advises a membership upgrade, the
    subtotal is above 10000, the membership earns no percentage, and the
    discount without coupon is the flat bonus of 20. *)
Theorem upgrade_warning_means_flat_bonus (inv : Invoice) (t : float)
    (w : list string) :
  compute_total (Some inv) = Ok (t, w) ->
  In "Consider membership upgrade" w ->
  exists s ff : float,
    _calculate_subtotal (items inv) = Ok (s, ff) /\
    Py.gtb s 10000 = true /\
    MEMBERSHIP_DISCOUNT !! membership inv = None /\
    _calculate_discount (with_coupon inv None) s = (20%float, []).
Proof.
  intros H Hin. destruct (compute_total_ok_inv inv t w H) as (Hv & s & ff & Hs).
  rewrite (compute_total_valid inv s ff Hv Hs) in H. injection H as _ <-.
  exists s, ff. split; [exact Hs|].
  assert (Hcond : Py.gtb s 10000 = true /\
                  MEMBERSHIP_DISCOUNT !! membership inv = None).
  { destruct (Py.gtb s 10000); simpl in Hin.
    - destruct (MEMBERSHIP_DISCOUNT !! membership inv) as [r|] eqn:Hm; [|auto].
      exfalso. rewrite bool_decide_true in Hin by eauto. simpl in Hin.
      rewrite app_nil_r in Hin.
      destruct (discount_warnings inv s) as [E|E]; rewrite E in Hin; simpl in Hin;
        intuition discriminate.
    - exfalso. rewrite app_nil_r in Hin.
      destruct (discount_warnings inv s) as [E|E]; rewrite E in Hin; simpl in Hin;
        intuition discriminate. }
  destruct Hcond as [Hgt Hm]. repeat split; [exact Hgt | exact Hm |].
  unfold _calculate_discount, with_coupon. simpl. rewrite Hm.
  unfold Py.gtb in *.
  rewrite (FloatOrder.ltb_trans 3000 10000 s eq_refl Hgt). reflexivity.
Qed.

Lemma upgrade_warning_means_flat_bonus_witness :
  compute_total (Some (single_line "th" "Gold" None 20000))
    = Ok (20979%float, ["Consider membership upgrade"]) /\
  In "Consider membership upgrade" ["Consider membership upgrade"] /\
  exists s ff : float,
    _calculate_subtotal (items (single_line "th" "Gold" None 20000)) = Ok (s, ff) /\
    Py.gtb s 10000 = true /\
    MEMBERSHIP_DISCOUNT !! membership (single_line "th" "Gold" None 20000) = None /\
    _calculate_discount (with_coupon (single_line "th" "Gold" None 20000) None) s
      = (20%float, []).
Proof.
  assert (H : compute_total (Some (single_line "th" "Gold" None 20000))
              = Ok (20979%float, ["Consider membership upgrade"]))
    by (vm_compute; reflexivity).
  split; [exact H|]. split; [left; reflexivity|].
  exact (upgrade_warning_means_flat_bonus _ _ _ H (or_introl eq_refl)).
Defined.

(** X14: without a recognized membership and without coupon, the
    discount is 0 up to a subtotal of 3000, 3000 included, and the flat 20
    above it. *)
Theorem flat_bonus_threshold (inv : Invoice) (s : float) :
  membership inv <> "gold" -> membership inv <> "platinum" ->
  ((s <=? 3000)%float = true ->
   _calculate_discount (with_coupon inv None) s = (0%float, [])) /\
  (Py.gtb s 3000 = true ->
   _calculate_discount (with_coupon inv None) s = (20%float, [])) /\
  _calculate_discount (with_coupon inv None) 3000 = (0%float, []) /\
  _calculate_discount (with_coupon inv None) 3000.01 = (20%float, []).
Proof.
  intros Hg Hp.
  assert (Hd : forall x : float,
            _calculate_discount (with_coupon inv None) x
              = (if Py.gtb x 3000 then 20%float else 0%float, [])).
  { intros x. unfold _calculate_discount, with_coupon. simpl.
    rewrite (MEMBERSHIP_DISCOUNT_none _ Hg Hp).
    destruct (Py.gtb x 3000); reflexivity. }
  rewrite !Hd. repeat split.
  - intros H. unfold Py.gtb. rewrite (FloatFacts.leb_not_ltb _ _ H). reflexivity.
  - intros ->. reflexivity.
Qed.

Lemma flat_bonus_threshold_witness :
  membership (single_line "TH" "silver" None 3500) <> "gold" /\
  membership (single_line "TH" "silver" None 3500) <> "platinum" /\
  ((3500 <=? 3000)%float = true ->
   _calculate_discount (with_coupon (single_line "TH" "silver" None 3500) None) 3500
     = (0%float, [])) /\
  (Py.gtb 3500 3000 = true ->
   _calculate_discount (with_coupon (single_line "TH" "silver" None 3500) None) 3500
     = (20%float, [])) /\
  _calculate_discount (with_coupon (single_line "TH" "silver" None 3500) None) 3000
    = (0%float, []) /\
  _calculate_discount (with_coupon (single_line "TH" "silver" None 3500) None) 3000.01
    = (20%float, []).
Proof.
  split; [discriminate|]. split; [discriminate|].
  apply (flat_bonus_threshold (single_line "TH" "silver" None 3500) 3500); discriminate.
Defined.

(** ** Quantities below 2^53 *)

Lemma compute_total_returns_witness :
  _validate (Some (example_invoice "INV-1" "CUST-1")) = Ok tt /\
  Forall (fun i => (Z.abs (qty i) < 2 ^ 53)%Z) (items (example_invoice "INV-1" "CUST-1")) /\
  exists (total : float) (warnings : list string),
    compute_total (Some (example_invoice "INV-1" "CUST-1")) = Ok (total, warnings).
Proof.
  assert (Hq : Forall (fun i => (Z.abs (qty i) < 2 ^ 53)%Z)
                 (items (example_invoice "INV-1" "CUST-1"))).
  { repeat constructor. }
  split; [reflexivity|]. split; [exact Hq|].
  exact (compute_total_returns (example_invoice "INV-1" "CUST-1") eq_refl Hq).
Defined.

(** ** Categories, fragile lines and prices that are not numbers *)

Lemma item_defect_reported (inv : Invoice) (item : LineItem) (d : string) :
  In item (items inv) -> In d (Spec.item_defects item) ->
  exists msg : string,
    compute_total (Some inv) = Raise (ValueError msg) /\ Spec.substring d msg.
Proof.
  intros Hin Hd.
  assert (Hall : In d (Spec.invoice_defects inv)).
  { unfold Spec.invoice_defects. rewrite !in_app_iff. right; right; right.
    apply in_concat. exists (Spec.item_defects item).
    split; [apply in_map, Hin | exact Hd]. }
  exists (Py.join "; " (Spec.invoice_defects inv)).
  split; [|apply join_substring, Hall].
  unfold compute_total. rewrite validate_spec.
  destruct (Spec.invoice_defects inv); [destruct Hall | reflexivity].
Qed.

(** X15: the categories are matched with their letter case: a line whose
    category is one of book, food, electronics and other up to letter
    case, and not that word (such as "Book"), makes the invoice invalid,
    and the message of the [ValueError] names it as an unknown category. *)
Theorem category_is_case_sensitive (inv : Invoice) (item : LineItem) (k : string) :
  In item (items inv) ->
  In k ["book"; "food"; "electronics"; "other"] ->
  Spec.differs_only_in_case (category item) k ->
  exists msg : string,
    compute_total (Some inv) = Raise (ValueError msg) /\
    Spec.substring ("Unknown category for " +:+ sku item) msg.
Proof.
  intros Hin Hk [Hne Hl].
  apply (item_defect_reported inv item); [exact Hin|].
  unfold Spec.item_defects. rewrite !in_app_iff. right; right; right.
  destruct (decide (In (category item) ["book"; "food"; "electronics"; "other"]))
    as [Hc|Hc]; [exfalso | left; reflexivity].
  simpl in Hk, Hc.
  destruct Hk as [<-|[<-|[<-|[<-|[]]]]];
    destruct Hc as [Hc|[Hc|[Hc|[Hc|[]]]]];
    rewrite <- Hc in *;
    solve [congruence | vm_compute in Hl; discriminate].
Qed.

Lemma category_is_case_sensitive_witness :
  In (mkLineItem "G" "Book" 10 1 false)
     (items (mkInvoice "INV-6" "CUST-6" "TH" "" None [mkLineItem "G" "Book" 10 1 false])) /\
  In "book" ["book"; "food"; "electronics"; "other"] /\
  Spec.differs_only_in_case (category (mkLineItem "G" "Book" 10 1 false)) "book" /\
  exists msg : string,
    compute_total
      (Some (mkInvoice "INV-6" "CUST-6" "TH" "" None [mkLineItem "G" "Book" 10 1 false]))
      = Raise (ValueError msg) /\
    Spec.substring ("Unknown category for " +:+ sku (mkLineItem "G" "Book" 10 1 false)) msg.
Proof.
  assert (H1 : In (mkLineItem "G" "Book" 10 1 false)
                 (items (mkInvoice "INV-6" "CUST-6" "TH" "" None
                           [mkLineItem "G" "Book" 10 1 false])))
    by (left; reflexivity).
  assert (H2 : In "book" ["book"; "food"; "electronics"; "other"]) by (left; reflexivity).
  assert (H3 : Spec.differs_only_in_case (category (mkLineItem "G" "Book" 10 1 false)) "book")
    by (split; [discriminate | reflexivity]).
  split; [exact H1|]. split; [exact H2|]. split; [exact H3|].
  exact (category_is_case_sensitive _ _ _ H1 H2 H3).
Defined.

(** X16: when no line is fragile, the fragile fee is 0. *)
Theorem no_fragile_line_no_fee (its : list LineItem) (s ff : float) :
  Forall (fun i => fragile i = false) its ->
  _calculate_subtotal its = Ok (s, ff) ->
  ff = 0%float.
Proof.
  intros Hf. unfold _calculate_subtotal, Py.sum.
  assert (Hnil : filter (fun i => fragile i = true) its = []).
  { induction Hf as [|i its Hi _ IH]; [reflexivity|].
    rewrite filter_cons, IH. destruct (decide (fragile i = true)); congruence. }
  rewrite Hnil.
  destruct (Py.sum_from _ its _); simpl; [|discriminate].
  intros [= _ <-]. reflexivity.
Qed.

Lemma no_fragile_line_no_fee_witness :
  Forall (fun i => fragile i = false) (items (single_line "TH" "" None 1000)) /\
  _calculate_subtotal (items (single_line "TH" "" None 1000)) = Ok (1000%float, 0%float) /\
  0%float = 0%float.
Proof.
  assert (Hf : Forall (fun i => fragile i = false) (items (single_line "TH" "" None 1000)))
    by (repeat constructor).
  split; [exact Hf|]. split; [reflexivity|].
  exact (no_fragile_line_no_fee _ 1000 0 Hf eq_refl).
Defined.

(** *** Not a number *)

Lemma is_nan_add (x y : float) :
  is_nan x = true \/ is_nan y = true -> is_nan (x + y)%float = true.
Proof.
  rewrite !FloatFacts.is_nan_spec, FloatAxioms.add_spec.
  intros [-> | ->]; [reflexivity|]. destruct (Prim2SF x); reflexivity.
Qed.

Lemma is_nan_sub (x y : float) :
  is_nan x = true -> is_nan (x - y)%float = true.
Proof.
  rewrite !FloatFacts.is_nan_spec, FloatAxioms.sub_spec. intros ->. reflexivity.
Qed.

Lemma is_nan_mul (x y : float) :
  is_nan x = true -> is_nan (x * y)%float = true.
Proof.
  rewrite !FloatFacts.is_nan_spec, FloatAxioms.mul_spec. intros ->. reflexivity.
Qed.

Lemma is_nan_not_ltb (x y : float) : is_nan x = true -> (x <? y)%float = false.
Proof.
  rewrite FloatFacts.is_nan_spec, FloatAxioms.ltb_spec. intros ->. reflexivity.
Qed.

Lemma sum_from_nan (l : list LineItem) (acc r : float) :
  is_nan acc = true \/ Exists (fun i => is_nan (unit_price i) = true) l ->
  Py.sum_from (fun i => Py.mul_int (unit_price i) (qty i)) l acc = Ok r ->
  is_nan r = true.
Proof.
  revert acc. induction l as [|i l IH]; intros acc Hn; simpl.
  - intros [= <-]. destruct Hn as [Hn|Hn]; [exact Hn | inversion Hn].
  - destruct (Py.mul_int (unit_price i) (qty i)) as [y|] eqn:Hy; simpl; [|discriminate].
    unfold Py.mul_int in Hy.
    destruct (Py.float_of_int (qty i)) as [q|]; simpl in Hy; [|discriminate].
    injection Hy as <-.
    apply IH. destruct Hn as [Hn|Hn].
    + left. apply is_nan_add. left. exact Hn.
    + inversion Hn as [? ? Hi|? ? Hl]; subst.
      * left. apply is_nan_add. right. apply is_nan_mul, Hi.
      * right. exact Hl.
Qed.

(** X17: a price that is not a number is not below 0, so the validation
    lets it through; if the invoice is otherwise valid and one of its
    prices is not a number, the total that [compute_total] returns is not
    a number either. *)
Theorem nan_price_gives_nan_total (inv : Invoice) (s ff : float) :
  _validate (Some inv) = Ok tt ->
  _calculate_subtotal (items inv) = Ok (s, ff) ->
  Exists (fun i => is_nan (unit_price i) = true) (items inv) ->
  exists (total : float) (warnings : list string),
    compute_total (Some inv) = Ok (total, warnings) /\ is_nan total = true.
Proof.
  intros Hv Hs Hn. rewrite (compute_total_valid inv s ff Hv Hs).
  eexists _, _. split; [reflexivity|]. cbv zeta.
  assert (Hsn : is_nan s = true).
  { unfold _calculate_subtotal, Py.sum in Hs.
    destruct (Py.sum_from _ (items inv) _) as [s0|] eqn:Hs0; simpl in Hs; [|discriminate].
    destruct (Py.sum_from _ (filter _ _) _); simpl in Hs; [|discriminate].
    injection Hs as <- _.
    exact (sum_from_nan _ _ _ (or_intror Hn) Hs0). }
  set (raw := (_ - _)%float).
  assert (Hraw : is_nan raw = true).
  { unfold raw. apply is_nan_sub. apply is_nan_add. left. apply is_nan_add. left.
    apply is_nan_add. left. exact Hsn. }
  rewrite (is_nan_not_ltb raw 0 Hraw). exact Hraw.
Qed.

Lemma nan_price_gives_nan_total_witness :
  _validate (Some (single_line "TH" "" None nan)) = Ok tt /\
  _calculate_subtotal (items (single_line "TH" "" None nan)) = Ok (nan, 0%float) /\
  Exists (fun i => is_nan (unit_price i) = true) (items (single_line "TH" "" None nan)) /\
  exists (total : float) (warnings : list string),
    compute_total (Some (single_line "TH" "" None nan)) = Ok (total, warnings) /\
    is_nan total = true.
Proof.
  assert (Hn : Exists (fun i => is_nan (unit_price i) = true)
                 (items (single_line "TH" "" None nan)))
    by (left; reflexivity).
  split; [reflexivity|]. split; [reflexivity|]. split; [exact Hn|].
  exact (nan_price_gives_nan_total (single_line "TH" "" None nan) nan 0 eq_refl eq_refl Hn).
Defined.
